(** * function-type-analyzer: the JSX heuristic of [src/index.ts]

    A shallow embedding of [analyzeFunctions] and of the command-line driver
    around it.  The syntax tree and the traversal primitive come from the
    ts-morph library; they are modelled here as far as the program uses them:
    node kinds, the accessors [getBody], [getStatements], [getExpression],
    and [forEachDescendant] with its [traversal.skip()] control. *)

From Stdlib Require Import List Bool Arith Lia String Ascii.
From Stdlib Require Import DecimalString Permutation.
Import ListNotations.
Local Open Scope string_scope.
Local Open Scope list_scope.

Set Implicit Arguments.
Set Warnings "-register-all".

(** ** Syntax trees *)

Module Ast.

(** Kinds of the nodes the program never tests for.  The eight kinds the
    program does test for are constructors of [Node] below. *)
Inductive OtherKind : Type :=
| SourceFileKind
| Identifier
| NumericLiteral
| NullKeyword
| BinaryExpression
| ParenthesizedExpression
| CallExpression
| PropertyAccessExpression
| ConditionalExpression
| ExpressionStatement
| VariableStatement
| VariableDeclaration
| IfStatement
| ParameterDeclaration
| EqualsGreaterThanToken
| PlusToken
| ClassDeclaration
| MethodDeclaration
| ConstructorDeclaration
| GetAccessor
| SetAccessor
| JsxOpeningElement
| JsxClosingElement
| JsxAttributes
| JsxExpression
| JsxText
| UnknownKind (tag : nat).

(** A node holds its children in the order [forEachChild] reports them.  For
    the three function kinds [sig] stands for everything before the body:
    modifiers, name, type parameters, parameters, return type. *)
Inductive Node : Type :=
| FunctionDeclaration (sig : list Node) (body : option Node)
| FunctionExpression (sig : list Node) (body : Node)
| ArrowFunction (sig : list Node) (body : Node)
| Block (statements : list Node)
| ReturnStatement (expression : option Node)
| JsxElement (parts : list Node)
| JsxSelfClosingElement (parts : list Node)
| JsxFragment (parts : list Node)
| OtherNode (kind : OtherKind) (children : list Node).

(** The type guards of ts-morph's [Node] namespace. *)
Definition isFunctionDeclaration (n : Node) : bool :=
  match n with FunctionDeclaration _ _ => true | _ => false end.
Definition isFunctionExpression (n : Node) : bool :=
  match n with FunctionExpression _ _ => true | _ => false end.
Definition isArrowFunction (n : Node) : bool :=
  match n with ArrowFunction _ _ => true | _ => false end.
Definition isBlock (n : Node) : bool :=
  match n with Block _ => true | _ => false end.
Definition isReturnStatement (n : Node) : bool :=
  match n with ReturnStatement _ => true | _ => false end.
Definition isJsxElement (n : Node) : bool :=
  match n with JsxElement _ => true | _ => false end.
Definition isJsxSelfClosingElement (n : Node) : bool :=
  match n with JsxSelfClosingElement _ => true | _ => false end.
Definition isJsxFragment (n : Node) : bool :=
  match n with JsxFragment _ => true | _ => false end.

(** [node.getBody()]: [undefined] for a declaration without a body and for
    every node that is not a function. *)
Definition getBody (n : Node) : option Node :=
  match n with
  | FunctionDeclaration _ body => body
  | FunctionExpression _ body => Some body
  | ArrowFunction _ body => Some body
  | _ => None
  end.

(** [block.getStatements()]. *)
Definition getStatements (n : Node) : list Node :=
  match n with Block statements => statements | _ => [] end.

(** [statement.getExpression()] of a return statement. *)
Definition getExpression (n : Node) : option Node :=
  match n with ReturnStatement expression => expression | _ => None end.

Definition optNode (o : option Node) : list Node :=
  match o with Some n => [n] | None => [] end.

(** The children of a node, in [forEachChild] order. *)
Definition forEachChild (n : Node) : list Node :=
  match n with
  | FunctionDeclaration sig body => sig ++ optNode body
  | FunctionExpression sig body => sig ++ [body]
  | ArrowFunction sig body => sig ++ [body]
  | Block statements => statements
  | ReturnStatement expression => optNode expression
  | JsxElement parts => parts
  | JsxSelfClosingElement parts => parts
  | JsxFragment parts => parts
  | OtherNode _ children => children
  end.

(** *** [forEachDescendant]

    The callback receives a node and the current state and returns the new
    state together with a flag telling whether it called [skip()] on the
    control object of this very invocation.  ts-morph keeps that flag in a
    variable local to the invocation and descends into the node's children
    only when it is still unset after the callback returns.  The program
    never calls [stop()] or [up()] and its callbacks return [undefined]. *)
Section ForEachDescendant.
Variable S : Type.
Variable cbNode : Node -> S -> S * bool.

Fixpoint forEachDescendant (node : Node) (s : S) {struct node} : S :=
  let nodeCallback (child : Node) (acc : S) : S :=
    let (acc', skip) := cbNode child acc in
    if skip then acc' else forEachDescendant child acc' in
  let visitNodes (l : list Node) (acc : S) : S :=
    fold_left (fun a child => nodeCallback child a) l acc in
  let visitNode (o : option Node) (acc : S) : S :=
    match o with Some child => nodeCallback child acc | None => acc end in
  match node with
  | FunctionDeclaration sig body => visitNode body (visitNodes sig s)
  | FunctionExpression sig body => nodeCallback body (visitNodes sig s)
  | ArrowFunction sig body => nodeCallback body (visitNodes sig s)
  | Block statements => visitNodes statements s
  | ReturnStatement expression => visitNode expression s
  | JsxElement parts => visitNodes parts s
  | JsxSelfClosingElement parts => visitNodes parts s
  | JsxFragment parts => visitNodes parts s
  | OtherNode _ children => visitNodes children s
  end.

(** One step of the traversal at [node]: the callback, then the children
    unless the callback asked to skip them. *)
Definition nodeCallback (node : Node) (s : S) : S :=
  let (s', skip) := cbNode node s in
  if skip then s' else forEachDescendant node s'.

End ForEachDescendant.

(** *** [forEachDescendant] on a bounded call stack

    The walk is recursive: [forEachChildForNode] calls [nodeCallback] on
    each child, which calls the callback and then [forEachChildForNode]
    again.  [depth] counts how many more levels of that recursion the call
    stack holds (the engine's limit measured in levels of the walk); at 0
    the next call throws [RangeError: Maximum call stack size exceeded],
    here [None], and the exception passes through every enclosing level.
    The callback is handed the stack that is left where it is called, for
    the walks it starts itself. *)
Section ForEachDescendantWithin.
Variable St : Type.
Variable cbNodeWithin : nat -> Node -> St -> option (St * bool).

Fixpoint forEachDescendantWithin (depth : nat) (node : Node) (s : St)
    {struct depth} : option St :=
  match depth with
  | 0 => None
  | S depth' =>
      fold_left
        (fun acc child =>
           match acc with
           | None => None
           | Some a =>
               match cbNodeWithin depth' child a with
               | None => None
               | Some (a', skip) =>
                   if skip then Some a'
                   else forEachDescendantWithin depth' child a'
               end
           end)
        (forEachChild node) (Some s)
  end.

End ForEachDescendantWithin.

End Ast.

(** ** The analyzer *)

Module Analyzer.
Import Ast.

(** [Node.isJsxElement(n) || Node.isJsxSelfClosingElement(n) ||
    Node.isJsxFragment(n)], the test the program repeats four times. *)
Definition isJsx (n : Node) : bool :=
  isJsxElement n || isJsxSelfClosingElement n || isJsxFragment n.

(** What one invocation of the outer callback can change besides the
    counters: the local [returnsJsx], and the skip flag behind the
    [traversal] object it was handed. *)
Record Locals : Type := mkLocals {
  returnsJsx : bool;
  skipCalled : bool
}.

(** The callback of the inner [body.forEachDescendant].  It takes the
    descendant only, so the control object of the inner traversal is never
    touched (second component [false]); the [traversal] it names is the
    parameter of the enclosing callback. *)
Definition check1_cb (descendant : Node) (l : Locals) : Locals * bool :=
  if isJsx descendant
  then ({| returnsJsx := true; skipCalled := true |}, false)
  else (l, false).

(** Check 1 (lines 52-67). *)
Definition check1 (node : Node) (l : Locals) : Locals :=
  match getBody node with
  | Some body => forEachDescendant check1_cb body l
  | None => l
  end.

(** The loop over [getStatements()] shared by both block-body branches of
    check 2. *)
Definition returnLoop (statements : list Node) (l : Locals) : Locals :=
  fold_left
    (fun acc statement =>
       if isReturnStatement statement then
         match getExpression statement with
         | Some expression =>
             if isJsx expression
             then {| returnsJsx := true; skipCalled := skipCalled acc |}
             else acc
         | None => acc
         end
       else acc)
    statements l.

(** Check 2 (lines 69-117). *)
Definition check2 (node : Node) (l : Locals) : Locals :=
  if isFunctionDeclaration node || isFunctionExpression node then
    match getBody node with
    | Some blockBody =>
        if isBlock blockBody then returnLoop (getStatements blockBody) l else l
    | None => l
    end
  else if isArrowFunction node then
    match getBody node with
    | Some arrowBody =>
        if isJsx arrowBody
        then {| returnsJsx := true; skipCalled := skipCalled l |}
        else if isBlock arrowBody
             then returnLoop (getStatements arrowBody) l
             else l
    | None => l
    end
  else l.

(** The value of [returnsJsx] and of the skip flag when line 119 is
    reached. *)
Definition classifyLocals (node : Node) : Locals :=
  check2 node (check1 node {| returnsJsx := false; skipCalled := false |}).

Inductive Classification : Type := MarkupProducing | Plain.

Definition classify (node : Node) : Classification :=
  if returnsJsx (classifyLocals node) then MarkupProducing else Plain.

(** The two counters of [analyzeFunctions].  [classified] is a ghost log: it
    records, in order, each node that reaches line 119 with the verdict it
    got there (the places of the two commented-out [console.log] calls). *)
Record Counters : Type := mkCounters {
  jsxFunctionCount : nat;
  normalFunctionCount : nat;
  classified : list (Node * Classification)
}.

Definition noCounts : Counters :=
  {| jsxFunctionCount := 0; normalFunctionCount := 0; classified := [] |}.

(** The callback of [sourceFile.forEachDescendant] (lines 44-132). *)
Definition cbNode (node : Node) (c : Counters) : Counters * bool :=
  if isFunctionDeclaration node || isArrowFunction node
     || isFunctionExpression node
  then
    let l := classifyLocals node in
    (if returnsJsx l
     then {| jsxFunctionCount := S (jsxFunctionCount c);
             normalFunctionCount := normalFunctionCount c;
             classified := classified c ++ [(node, MarkupProducing)] |}
     else {| jsxFunctionCount := jsxFunctionCount c;
             normalFunctionCount := S (normalFunctionCount c);
             classified := classified c ++ [(node, Plain)] |},
     skipCalled l)
  else (c, false).

(** A source file of the project. *)
Record SourceFile : Type := mkSourceFile {
  getFilePath : string;
  sourceNode : Node
}.

Definition show (n : nat) : string :=
  NilEmpty.string_of_uint (Nat.to_uint n).

(** The state of the [for] loop over the source files: what has been written
    to standard output, and the counters. *)
Record Run : Type := mkRun {
  stdout : list string;
  counts : Counters
}.

Definition processFile (r : Run) (sourceFile : SourceFile) : Run :=
  {| stdout := stdout r ++ [("Processing file: " ++ getFilePath sourceFile)%string];
     counts := forEachDescendant cbNode (sourceNode sourceFile) (counts r) |}.

(** The part of [analyzeFunctions] after [project.getSourceFiles()]
    (lines 35-141). *)
Definition analyzeSourceFiles (folderToAnalyze : string)
    (sourceFiles : list SourceFile) : Run :=
  let r0 :=
    {| stdout := [("Analyzing " ++ show (List.length sourceFiles) ++ " files in "
                     ++ folderToAnalyze ++ "...")%string];
       counts := noCounts |} in
  let r := fold_left processFile sourceFiles r0 in
  let c := counts r in
  {| stdout := stdout r ++
       [ String "010" "--- Analysis Complete ---";
         ("Total Files Analyzed: " ++ show (List.length sourceFiles))%string;
         ("Functions returning JSX (heuristic): "
            ++ show (jsxFunctionCount c))%string;
         ("Other functions: " ++ show (normalFunctionCount c))%string;
         ("Total functions found: "
            ++ show (jsxFunctionCount c + normalFunctionCount c))%string ];
     counts := c |}.

(** *** The same analysis on a bounded call stack

    Check 1 starts a recursive walk of its own inside the callback, on the
    stack that is left there; check 2 only loops.  When a walk throws, the
    callback and the loop over the files are left at once, with what was
    written to standard output until then. *)
Definition check1Within (depth : nat) (node : Node) (l : Locals)
    : option Locals :=
  match getBody node with
  | Some body =>
      forEachDescendantWithin (fun _ d a => Some (check1_cb d a)) depth body l
  | None => Some l
  end.

(** The verdict reached at line 119, if the walk of check 1 returns. *)
Definition classifyWithin (depth : nat) (node : Node)
    : option Classification :=
  match check1Within depth node
          {| returnsJsx := false; skipCalled := false |} with
  | None => None
  | Some l1 =>
      Some (if returnsJsx (check2 node l1) then MarkupProducing else Plain)
  end.

Definition cbNodeWithin (depth : nat) (node : Node) (c : Counters)
    : option (Counters * bool) :=
  if isFunctionDeclaration node || isArrowFunction node
     || isFunctionExpression node
  then
    match check1Within depth node
            {| returnsJsx := false; skipCalled := false |} with
    | None => None
    | Some l1 =>
        let l := check2 node l1 in
        Some
          (if returnsJsx l
           then {| jsxFunctionCount := S (jsxFunctionCount c);
                   normalFunctionCount := normalFunctionCount c;
                   classified := classified c ++ [(node, MarkupProducing)] |}
           else {| jsxFunctionCount := jsxFunctionCount c;
                   normalFunctionCount := S (normalFunctionCount c);
                   classified := classified c ++ [(node, Plain)] |},
           skipCalled l)
    end
  else Some (c, false).

(** The loop over the source files: [inl] carries the standard output at
    the moment a walk threw, [inr] the state after the last file. *)
Fixpoint processFilesWithin (depth : nat) (sourceFiles : list SourceFile)
    (r : Run) : list string + Run :=
  match sourceFiles with
  | [] => inr r
  | sourceFile :: rest =>
      let written :=
        stdout r ++ [("Processing file: " ++ getFilePath sourceFile)%string] in
      match forEachDescendantWithin cbNodeWithin depth
              (sourceNode sourceFile) (counts r) with
      | None => inl written
      | Some c =>
          processFilesWithin depth rest {| stdout := written; counts := c |}
      end
  end.

Definition analyzeSourceFilesWithin (depth : nat) (folderToAnalyze : string)
    (sourceFiles : list SourceFile) : list string + Run :=
  let r0 :=
    {| stdout := [("Analyzing " ++ show (List.length sourceFiles) ++ " files in "
                     ++ folderToAnalyze ++ "...")%string];
       counts := noCounts |} in
  match processFilesWithin depth sourceFiles r0 with
  | inl written => inl written
  | inr r =>
      let c := counts r in
      inr {| stdout := stdout r ++
               [ String "010" "--- Analysis Complete ---";
                 ("Total Files Analyzed: " ++ show (List.length sourceFiles))%string;
                 ("Functions returning JSX (heuristic): "
                    ++ show (jsxFunctionCount c))%string;
                 ("Other functions: " ++ show (normalFunctionCount c))%string;
                 ("Total functions found: "
                    ++ show (jsxFunctionCount c + normalFunctionCount c))%string ];
             counts := c |}
  end.

End Analyzer.

(** ** The command-line driver (lines 14-33 and 144-169) *)

Module Cli.
Import Ast Analyzer.

(** What the driver asks of its surroundings: the argument vector, the
    [path] and [fs] modules, the ts-morph project, whose loading either
    throws or yields the source files, and the call stack of the engine,
    measured in levels of the recursive walk. *)
Record Env : Type := mkEnv {
  stackDepth : nat;
  argv2 : option string;
  resolve : string -> string;
  join : string -> string -> string;
  existsSync : string -> bool;
  statIsDirectory : string -> bool;
  getSourceFiles : list string -> string + list SourceFile
}.

(** [.replace(/\\/g, "/")]. *)
Fixpoint replaceBackslashes (s : string) : string :=
  match s with
  | EmptyString => EmptyString
  | String c rest =>
      String (if Ascii.eqb c "092"%char then "/"%char else c)
             (replaceBackslashes rest)
  end.

(** How the promise returned by [analyzeFunctions] settles, with what was
    written to standard output by then. *)
Inductive Settled : Type :=
| Fulfilled (out : list string) (c : Counters)
| Rejected (out : list string) (error : string).

(** What a walk that runs out of stack throws. *)
Definition rangeError : string :=
  "RangeError: Maximum call stack size exceeded".

Definition analyzeFunctions (e : Env) (folderToAnalyze : string) : Settled :=
  let includePattern :=
    replaceBackslashes (join e folderToAnalyze "**/*.{ts,tsx}") in
  let excludeNodeModulesPattern := "!**/node_modules/**" in
  let excludeDistPattern := "!**/dist/**" in
  match getSourceFiles e
          [includePattern; excludeNodeModulesPattern; excludeDistPattern] with
  | inl error => Rejected [] error
  | inr sourceFiles =>
      match analyzeSourceFilesWithin (stackDepth e) folderToAnalyze
              sourceFiles with
      | inl written => Rejected written rangeError
      | inr r => Fulfilled (stdout r) (counts r)
      end
  end.

(** What the process leaves behind. *)
Record Exit : Type := mkExit {
  exitCode : nat;
  out : list string;
  err : list string
}.

(** [!targetFolderArg]: a missing argument and the empty string are both
    falsy. *)
Definition falsy (a : option string) : bool :=
  match a with
  | None => true
  | Some EmptyString => true
  | Some _ => false
  end.

Definition main (e : Env) : Exit :=
  let targetFolderArg := argv2 e in
  if falsy targetFolderArg then
    {| exitCode := 1;
       out := [];
       err := [ "Error: Please provide the target folder path as a command-line argument.";
                "Usage: ts-node index.ts <path-to-folder>" ] |}
  else
    let targetFolder :=
      resolve e (match targetFolderArg with Some a => a | None => EmptyString end) in
    if negb (existsSync e targetFolder) || negb (statIsDirectory e targetFolder)
    then
      {| exitCode := 1;
         out := [];
         err := [ ("Error: The provided path " ++ String "034" targetFolder
                     ++ String "034" " does not exist or is not a directory.")%string ] |}
    else
      match analyzeFunctions e targetFolder with
      | Fulfilled o _ => {| exitCode := 0; out := o; err := [] |}
      | Rejected o error =>
          {| exitCode := 1;
             out := o;
             err := [ ("An error occurred during analysis: " ++ error)%string ] |}
      end.

End Cli.

(** ** Vocabulary for the statements *)

Module Spec.
Import Ast Analyzer.

(** The proper descendants of a node in the order an unpruned traversal
    meets them. *)
Fixpoint descendants (node : Node) : list Node :=
  let below (l : list Node) : list Node :=
    flat_map (fun child => child :: descendants child) l in
  match node with
  | FunctionDeclaration sig body =>
      below sig ++
      match body with Some b => b :: descendants b | None => [] end
  | FunctionExpression sig body => below sig ++ body :: descendants body
  | ArrowFunction sig body => below sig ++ body :: descendants body
  | Block statements => below statements
  | ReturnStatement expression =>
      match expression with Some e => e :: descendants e | None => [] end
  | JsxElement parts => below parts
  | JsxSelfClosingElement parts => below parts
  | JsxFragment parts => below parts
  | OtherNode _ children => below children
  end.

Definition isFunctionLike (n : Node) : bool :=
  isFunctionDeclaration n || isArrowFunction n || isFunctionExpression n.

Definition initial : Locals := {| returnsJsx := false; skipCalled := false |}.

(** A top-level statement that is [return <markup>]. *)
Definition returnsMarkup (statement : Node) : bool :=
  isReturnStatement statement &&
  match getExpression statement with
  | Some expression => isJsx expression
  | None => false
  end.

(** The verdict of check 1 taken alone. *)
Definition classifyByCheck1 (node : Node) : Classification :=
  if returnsJsx (check1 node initial) then MarkupProducing else Plain.

(** A function declaration or function expression has a block for a body
    whenever it has one; only an arrow function may have an expression
    there.  The parser builds no other tree. *)
Definition blockBodied (node : Node) : bool :=
  isArrowFunction node ||
  match getBody node with Some b => isBlock b | None => true end.

(** An arrow function whose expression body is itself a markup node, as in
    [() => <div/>]. *)
Definition conciseMarkupArrow (node : Node) : bool :=
  isArrowFunction node &&
  match getBody node with Some b => isJsx b | None => false end.

(** Markup strictly below the body: what makes check 1 fire. *)
Definition markupBelowBody (node : Node) : bool :=
  match getBody node with
  | Some b => existsb isJsx (descendants b)
  | None => false
  end.

(** The nodes the outer traversal enumerates below [node], read off the
    tree: the function-like proper descendants in source order, leaving out
    whatever lies under a function-like node with markup below its body. *)
Fixpoint enumerated (node : Node) : list Node :=
  let at_ (child : Node) : list Node :=
    if isFunctionLike child
    then child :: (if markupBelowBody child then [] else enumerated child)
    else enumerated child in
  let below (l : list Node) : list Node := flat_map at_ l in
  match node with
  | FunctionDeclaration sig body =>
      below sig ++ match body with Some b => at_ b | None => [] end
  | FunctionExpression sig body => below sig ++ at_ body
  | ArrowFunction sig body => below sig ++ at_ body
  | Block statements => below statements
  | ReturnStatement expression =>
      match expression with Some e => at_ e | None => [] end
  | JsxElement parts => below parts
  | JsxSelfClosingElement parts => below parts
  | JsxFragment parts => below parts
  | OtherNode _ children => below children
  end.

(** One step of that enumeration at [node] itself. *)
Definition enumeratedAt (node : Node) : list Node :=
  if isFunctionLike node
  then node :: (if markupBelowBody node then [] else enumerated node)
  else enumerated node.

Definition verdicts (l : list Node) : list (Node * Classification) :=
  map (fun n => (n, classify n)) l.

Definition isMarkupProducing (v : Classification) : bool :=
  match v with MarkupProducing => true | Plain => false end.

Definition isPlain (v : Classification) : bool :=
  match v with MarkupProducing => false | Plain => true end.

(** The counters agree with the log, and the log holds function-like nodes
    with the verdict of [classify]. *)
Record Consistent (c : Counters) : Prop := mkConsistent {
  jsx_counted :
    jsxFunctionCount c =
    List.length (filter (fun e => isMarkupProducing (snd e)) (classified c));
  normal_counted :
    normalFunctionCount c =
    List.length (filter (fun e => isPlain (snd e)) (classified c));
  log_sound :
    Forall (fun e => isFunctionLike (fst e) = true /\ snd e = classify (fst e))
           (classified c)
}.

End Spec.

(** ** Sample trees (the scenarios of the specification) *)

Module Samples.
Import Ast Analyzer Spec.

Definition leaf (k : OtherKind) : Node := OtherNode k [].
Definition ident : Node := leaf Identifier.
Definition file (statements : list Node) : SourceFile :=
  {| getFilePath := "/src/a.tsx";
     sourceNode := OtherNode SourceFileKind statements |}.

(** [<div/>], [<span/>], [<p/>] *)
Definition selfClosing : Node :=
  JsxSelfClosingElement [ident; leaf JsxAttributes].

(** [() => <div/>] *)
Definition scenarioA : Node :=
  ArrowFunction [leaf EqualsGreaterThanToken] selfClosing.

(** [function f(){ return 1 + 1; }] *)
Definition scenarioB : Node :=
  FunctionDeclaration [ident]
    (Some (Block
       [ReturnStatement
          (Some (OtherNode BinaryExpression
                   [leaf NumericLiteral; leaf PlusToken;
                    leaf NumericLiteral]))])).

(** [function f(){ const x = <span/>; console.log(x); return null; }] *)
Definition scenarioC : Node :=
  FunctionDeclaration [ident]
    (Some (Block
       [OtherNode VariableStatement
          [OtherNode VariableDeclaration [ident; selfClosing]];
        OtherNode ExpressionStatement
          [OtherNode CallExpression
             [OtherNode PropertyAccessExpression [ident; ident]; ident]];
        ReturnStatement (Some (leaf NullKeyword))])).

(** [function inner(){ return <p/>; }] *)
Definition inner : Node :=
  FunctionDeclaration [ident]
    (Some (Block [ReturnStatement (Some selfClosing)])).

(** [function outer(){ function inner(){ return <p/>; } return 0; }] *)
Definition outer : Node :=
  FunctionDeclaration [ident]
    (Some (Block [inner; ReturnStatement (Some (leaf NumericLiteral))])).

(** [function outer(){ function inner(){ return 1; } return 0; }] *)
Definition innerPlain : Node :=
  FunctionDeclaration [ident]
    (Some (Block [ReturnStatement (Some (leaf NumericLiteral))])).

Definition outerPlain : Node :=
  FunctionDeclaration [ident]
    (Some (Block [innerPlain; ReturnStatement (Some (leaf NumericLiteral))])).

(** [function f(x: number): void;], an overload signature *)
Definition overload : Node :=
  FunctionDeclaration [ident; OtherNode ParameterDeclaration [ident]] None.

(** [class C { render() { return <div/>; } }] *)
Definition classWithRender : Node :=
  OtherNode ClassDeclaration
    [ident;
     OtherNode MethodDeclaration
       [ident; Block [ReturnStatement (Some selfClosing)]]].

(** Surroundings of the driver. *)
Definition envWith (arg : option string) (exists_ isDir : string -> bool)
    (load : list string -> string + list SourceFile) : Cli.Env :=
  {| Cli.stackDepth := 1000;
     Cli.argv2 := arg;
     Cli.resolve := fun p => p;
     Cli.join := fun a b => (a ++ "/" ++ b)%string;
     Cli.existsSync := exists_;
     Cli.statIsDirectory := isDir;
     Cli.getSourceFiles := load |}.

Definition envNoArgument : Cli.Env :=
  envWith None (fun _ => true) (fun _ => true) (fun _ => inr []).

Definition envNotADirectory : Cli.Env :=
  envWith (Some "/src/a.ts") (fun _ => true) (fun _ => false)
          (fun _ => inr []).

Definition envMissingPath : Cli.Env :=
  envWith (Some "/nowhere") (fun _ => false) (fun _ => false)
          (fun _ => inr []).

Definition envLoadFails : Cli.Env :=
  envWith (Some "/src") (fun _ => true) (fun _ => true)
          (fun _ => inl "EACCES: permission denied").

Definition envEmptyFolder : Cli.Env :=
  envWith (Some "/src") (fun _ => true) (fun _ => true) (fun _ => inr []).

End Samples.

(** ** Further vocabulary: shapes of trees, the report, the patterns *)

Module Shape.
Import Ast Analyzer Cli Spec.

(** A block body with a top-level [return] whose expression is directly a
    markup node: what the loops of check 2 look for. *)
Definition returnsMarkupDirectly (node : Node) : bool :=
  match getBody node with
  | Some b => isBlock b && existsb returnsMarkup (getStatements b)
  | None => false
  end.

(** The function-like proper descendants of a node, in source order. *)
Definition functionNodes (node : Node) : list Node :=
  filter isFunctionLike (descendants node).

(** Per source file: what the traversal enumerates, and all the
    function-like nodes there are. *)
Definition fileEnumerated (sf : SourceFile) : list Node :=
  enumerated (sourceNode sf).

Definition fileFunctionNodes (sf : SourceFile) : list Node :=
  functionNodes (sourceNode sf).

(** [Reached root n]: there is a path of children from [root] down to [n]
    on which no node strictly between the two has markup below its body. *)
Inductive Reached (root : Node) : Node -> Prop :=
| Reached_child (n : Node) :
    In n (forEachChild root) -> Reached root n
| Reached_below (p n : Node) :
    Reached root p ->
    markupBelowBody p = false ->
    In n (forEachChild p) ->
    Reached root n.

(** The [Processing file: ...] lines of the progress log. *)
Definition progressLines (files : list SourceFile) : list string :=
  map (fun sf => ("Processing file: " ++ getFilePath sf)%string) files.

(** The five lines printed after the loop, for given totals. *)
Definition reportLines (nfiles jsx normal : nat) : list string :=
  [ String "010" "--- Analysis Complete ---";
    ("Total Files Analyzed: " ++ show nfiles)%string;
    ("Functions returning JSX (heuristic): " ++ show jsx)%string;
    ("Other functions: " ++ show normal)%string;
    ("Total functions found: " ++ show (jsx + normal))%string ].


Definition backslash : ascii := "092"%char.

Definition hasBackslash (s : string) : bool :=
  existsb (Ascii.eqb backslash) (list_ascii_of_string s).

(** The number of levels the recursive walk needs below and at a node: one
    for the node's own children loop, plus the deepest child. *)
Fixpoint height (node : Node) : nat :=
  let over (l : list Node) : nat := list_max (map height l) in
  S (match node with
     | FunctionDeclaration sig body =>
         Nat.max (over sig)
                 (match body with Some b => height b | None => 0 end)
     | FunctionExpression sig body => Nat.max (over sig) (height body)
     | ArrowFunction sig body => Nat.max (over sig) (height body)
     | Block statements => over statements
     | ReturnStatement expression =>
         match expression with Some e => height e | None => 0 end
     | JsxElement parts => over parts
     | JsxSelfClosingElement parts => over parts
     | JsxFragment parts => over parts
     | OtherNode _ children => over children
     end).

(** What the walk of check 1 needs at a node: the height of the body. *)
Definition bodyHeight (node : Node) : nat :=
  match getBody node with Some b => height b | None => 0 end.

(** The verdict as a function of the shape of the subtree. *)
Definition verdictOfShape (node : Node) : Classification :=
  if markupBelowBody node || conciseMarkupArrow node
  then MarkupProducing else Plain.

(** Standard output as text: every [console.log] call writes its string and
    a line break. *)
Definition newline : ascii := "010"%char.

Fixpoint lineBreaks (s : string) : nat :=
  match s with
  | EmptyString => 0
  | String c rest =>
      (if Ascii.eqb c newline then 1 else 0) + lineBreaks rest
  end.

Definition writtenLines (calls : list string) : nat :=
  list_sum (map (fun call => lineBreaks call + 1) calls).

(** What one file adds to each counter when analysed alone. *)
Definition jsxOf (sf : SourceFile) : nat :=
  jsxFunctionCount (counts (analyzeSourceFiles EmptyString [sf])).

Definition normalOf (sf : SourceFile) : nat :=
  normalFunctionCount (counts (analyzeSourceFiles EmptyString [sf])).

End Shape.

(** ** Further sample trees *)

Module Cases.
Import Ast Analyzer Spec Samples.

Definition arrow (body : Node) : Node :=
  ArrowFunction [leaf EqualsGreaterThanToken] body.

(** [function f(a = <div/>) {}]: markup in the signature only *)
Definition defaultMarkup : Node :=
  FunctionDeclaration
    [ident; OtherNode ParameterDeclaration [ident; selfClosing]]
    (Some (Block [])).

(** [() => 1] *)
Definition constantArrow : Node := arrow (leaf NumericLiteral).

(** [() => <div onClick={() => 1}/>]: the body is markup, nothing below it
    is, and an arrow function sits in an attribute *)
Definition handler : Node :=
  arrow (JsxSelfClosingElement
           [ident;
            OtherNode JsxAttributes
              [OtherNode JsxExpression [constantArrow]]]).

(** [() => () => <div/>] *)
Definition wrapper : Node := arrow scenarioA.

(** [function f(c){ if (c) { return <div/>; } return null; }] *)
Definition conditional : Node :=
  FunctionDeclaration [ident; OtherNode ParameterDeclaration [ident]]
    (Some (Block
       [OtherNode IfStatement
          [ident; Block [ReturnStatement (Some selfClosing)]];
        ReturnStatement (Some (leaf NullKeyword))])).

(** [function f(){ return <div/>; }] *)
Definition component : Node :=
  FunctionDeclaration [ident]
    (Some (Block [ReturnStatement (Some selfClosing)])).

(** [const f = function(){ return 1; }] *)
Definition assigned : Node :=
  OtherNode VariableStatement
    [OtherNode VariableDeclaration
       [ident;
        FunctionExpression []
          (Block [ReturnStatement (Some (leaf NumericLiteral))])]].

(** [() => <div><span/></div>]: the body is markup and has markup below *)
Definition nestedMarkupArrow : Node :=
  arrow (JsxElement
           [OtherNode JsxOpeningElement [ident; leaf JsxAttributes];
            selfClosing;
            OtherNode JsxClosingElement [ident]]).

(** [1] inside [n] pairs of parentheses *)
Fixpoint parenthesized (n : nat) : Node :=
  match n with
  | 0 => leaf NumericLiteral
  | S k => OtherNode ParenthesizedExpression [parenthesized k]
  end.

(** [function f(){ return ((...(1)...)); }] with [n] pairs of parentheses *)
Definition deepFunction (n : nat) : Node :=
  FunctionDeclaration [ident]
    (Some (Block [ReturnStatement (Some (parenthesized n))])).

Definition fileAt (path : string) (statements : list Node) : SourceFile :=
  {| getFilePath := path;
     sourceNode := OtherNode SourceFileKind statements |}.




End Cases.

(** ** Facts about the traversal *)

Module TraversalFacts.
Import Ast Spec.

(** Induction over a tree with the property available for every child. *)
Lemma Node_children_ind (P : Node -> Prop)
    (step : forall n, Forall P (forEachChild n) -> P n) :
  forall n, P n.
Proof.
  fix IH 1. intros n. apply step.
  destruct n as [sig body|sig body|sig body|l|e|l|l|l|k l]; simpl.
  - apply Forall_app; split.
    + induction sig; constructor; auto.
    + destruct body; constructor; auto.
  - apply Forall_app; split.
    + induction sig; constructor; auto.
    + constructor; auto.
  - apply Forall_app; split.
    + induction sig; constructor; auto.
    + constructor; auto.
  - induction l; constructor; auto.
  - destruct e; constructor; auto.
  - induction l; constructor; auto.
  - induction l; constructor; auto.
  - induction l; constructor; auto.
  - induction l; constructor; auto.
Qed.

Lemma descendants_children (node : Node) :
  descendants node =
  flat_map (fun child => child :: descendants child) (forEachChild node).
Proof.
  destruct node as [sig [b|]|sig b|sig b|l|[e|]|l|l|l|k l]; simpl;
    rewrite ?flat_map_app; simpl; rewrite ?app_nil_r; reflexivity.
Qed.

Section Generic.
Variable S : Type.
Variable cb : Node -> S -> S * bool.

(** [forEachDescendant] is a left fold of [nodeCallback] over the
    children. *)
Lemma forEachDescendant_children (node : Node) (s : S) :
  forEachDescendant cb node s =
  fold_left (fun a child => nodeCallback cb child a) (forEachChild node) s.
Proof.
  destruct node as [sig [b|]|sig b|sig b|l|[e|]|l|l|l|k l]; simpl;
    rewrite ?fold_left_app; reflexivity.
Qed.

(** A property of the state that every callback invocation preserves is
    preserved by the whole traversal, whatever gets skipped. *)
Lemma forEachDescendant_invariant (I : S -> Prop) :
  (forall n s, I s -> I (fst (cb n s))) ->
  forall node s, I s -> I (forEachDescendant cb node s).
Proof.
  intros Hcb node. induction node as [node IH] using Node_children_ind.
  intros s Hs. rewrite forEachDescendant_children.
  revert s Hs. induction IH as [|child rest Hchild _ IHrest]; simpl; intros s Hs.
  - exact Hs.
  - apply IHrest. unfold nodeCallback.
    specialize (Hcb child s Hs). destruct (cb child s) as [s' skip]; simpl in Hcb.
    destruct skip; auto.
Qed.

(** A callback that never asks to skip sees every proper descendant. *)
Lemma forEachDescendant_unpruned :
  (forall n s, snd (cb n s) = false) ->
  forall node s,
    forEachDescendant cb node s =
    fold_left (fun a d => fst (cb d a)) (descendants node) s.
Proof.
  intros Hns node. induction node as [node IH] using Node_children_ind.
  intros s. rewrite forEachDescendant_children, descendants_children.
  revert s. induction IH as [|child rest Hchild _ IHrest]; simpl; intros s.
  - reflexivity.
  - rewrite fold_left_app. simpl. rewrite <- IHrest. f_equal.
    unfold nodeCallback. specialize (Hns child s).
    destruct (cb child s) as [s' skip]; simpl in *. subst skip.
    apply Hchild.
Qed.

End Generic.

End TraversalFacts.

(** ** Facts about the two checks *)

Module ClassifierFacts.
Import Ast Analyzer Spec TraversalFacts.

Lemma check1_cb_fold (ds : list Node) (l : Locals) :
  fold_left (fun a d => fst (check1_cb d a)) ds l =
  if existsb isJsx ds then {| returnsJsx := true; skipCalled := true |} else l.
Proof.
  revert l. induction ds as [|d ds IH]; simpl; intros l.
  - reflexivity.
  - rewrite IH. unfold check1_cb. destruct (isJsx d); simpl.
    + destruct (existsb isJsx ds); reflexivity.
    + reflexivity.
Qed.

Lemma check1_body (body : Node) (l : Locals) :
  forEachDescendant check1_cb body l =
  if existsb isJsx (descendants body)
  then {| returnsJsx := true; skipCalled := true |} else l.
Proof.
  rewrite forEachDescendant_unpruned.
  - apply check1_cb_fold.
  - intros n s. unfold check1_cb. destruct (isJsx n); reflexivity.
Qed.

Lemma returnLoop_skipCalled (statements : list Node) (l : Locals) :
  skipCalled (returnLoop statements l) = skipCalled l.
Proof.
  unfold returnLoop. revert l.
  induction statements as [|st rest IH]; simpl; intros l; [reflexivity|].
  rewrite IH. destruct (isReturnStatement st); [|reflexivity].
  destruct (getExpression st) as [e|]; [|reflexivity].
  destruct (isJsx e); reflexivity.
Qed.

Lemma returnLoop_returnsJsx (statements : list Node) (l : Locals) :
  returnsJsx (returnLoop statements l) =
  returnsJsx l || existsb returnsMarkup statements.
Proof.
  unfold returnLoop. revert l.
  induction statements as [|st rest IH]; simpl; intros l.
  - now rewrite orb_false_r.
  - rewrite IH. unfold returnsMarkup.
    destruct (isReturnStatement st); simpl; [|reflexivity].
    destruct (getExpression st) as [e|]; simpl; [|reflexivity].
    destruct (isJsx e); simpl; [|reflexivity].
    now rewrite orb_true_r.
Qed.

(** The expression of a top-level [return] is a descendant of the block. *)
Lemma returnsMarkup_descendant (statements : list Node) :
  existsb returnsMarkup statements = true ->
  existsb isJsx (descendants (Block statements)) = true.
Proof.
  simpl. induction statements as [|st rest IH]; simpl; [discriminate|].
  intros H. apply orb_true_iff in H. rewrite existsb_app.
  destruct H as [H|H].
  - unfold returnsMarkup in H. apply andb_true_iff in H. destruct H as [Hr He].
    destruct st; try discriminate. simpl in He.
    destruct expression as [e|]; [|discriminate].
    simpl. rewrite He. simpl. rewrite ?orb_true_r. reflexivity.
  - rewrite (IH H). rewrite ?orb_true_r. reflexivity.
Qed.

Lemma check1_returnsJsx (node : Node) :
  returnsJsx (check1 node initial) =
  match getBody node with
  | Some b => existsb isJsx (descendants b)
  | None => false
  end.
Proof.
  unfold check1. destruct (getBody node) as [b|]; [|reflexivity].
  rewrite check1_body. destruct (existsb isJsx (descendants b)); reflexivity.
Qed.

Lemma check1_skipCalled (node : Node) :
  skipCalled (check1 node initial) = returnsJsx (check1 node initial).
Proof.
  unfold check1. destruct (getBody node) as [b|]; [|reflexivity].
  rewrite check1_body. destruct (existsb isJsx (descendants b)); reflexivity.
Qed.

Lemma check2_skipCalled (node : Node) (l : Locals) :
  skipCalled (check2 node l) = skipCalled l.
Proof.
  unfold check2.
  destruct (isFunctionDeclaration node || isFunctionExpression node).
  - destruct (getBody node) as [b|]; [|reflexivity].
    destruct (isBlock b); [apply returnLoop_skipCalled|reflexivity].
  - destruct (isArrowFunction node); [|reflexivity].
    destruct (getBody node) as [b|]; [|reflexivity].
    destruct (isJsx b); [reflexivity|].
    destruct (isBlock b); [apply returnLoop_skipCalled|reflexivity].
Qed.

(** What check 2 adds to the flag it is handed. *)
Lemma check2_returnsJsx (node : Node) (l : Locals) :
  returnsJsx (check2 node l) =
  returnsJsx l ||
  match getBody node with
  | Some b =>
      isFunctionLike node &&
      ((isArrowFunction node && isJsx b) ||
       (isBlock b && existsb returnsMarkup (getStatements b)))
  | None => false
  end.
Proof.
  unfold check2, isFunctionLike.
  destruct node as [sig [b|]|sig b|sig b|st|e|ps|ps|ps|k cs]; simpl;
    rewrite ?orb_false_r; try reflexivity.
  - destruct (isBlock b); simpl; [apply returnLoop_returnsJsx|now rewrite orb_false_r].
  - destruct (isBlock b); simpl; [apply returnLoop_returnsJsx|now rewrite orb_false_r].
  - destruct (isJsx b) eqn:Hj; simpl; [now rewrite orb_true_r|].
    destruct (isBlock b); simpl; [apply returnLoop_returnsJsx|now rewrite orb_false_r].
Qed.

(** The verdict in closed form: markup strictly below the body, or an arrow
    function whose body is itself markup. *)
Lemma classifyLocals_returnsJsx (node : Node) :
  returnsJsx (classifyLocals node) =
  match getBody node with
  | Some b => existsb isJsx (descendants b) || (isArrowFunction node && isJsx b)
  | None => false
  end.
Proof.
  unfold classifyLocals. fold initial.
  rewrite check2_returnsJsx, check1_returnsJsx.
  destruct (getBody node) as [b|] eqn:Hb; [|reflexivity].
  destruct (existsb isJsx (descendants b)) eqn:H1; simpl; [reflexivity|].
  assert (Hsub : isBlock b && existsb returnsMarkup (getStatements b) = false).
  { destruct b; simpl; try reflexivity.
    destruct (existsb returnsMarkup statements) eqn:H2; [|reflexivity].
    apply returnsMarkup_descendant in H2. congruence. }
  rewrite Hsub, orb_false_r. unfold isFunctionLike.
  destruct (isFunctionDeclaration node), (isArrowFunction node),
    (isFunctionExpression node); reflexivity.
Qed.

Lemma classifyLocals_skipCalled (node : Node) :
  skipCalled (classifyLocals node) =
  match getBody node with
  | Some b => existsb isJsx (descendants b)
  | None => false
  end.
Proof.
  unfold classifyLocals. fold initial.
  rewrite check2_skipCalled, check1_skipCalled. apply check1_returnsJsx.
Qed.

End ClassifierFacts.

(** ** The classifier *)

Module ClassifierClaims.
Import Ast Analyzer Spec TraversalFacts ClassifierFacts Samples Cases.

(** Shape of the verdict at line 119 in terms of [classify]. *)
Lemma classify_MarkupProducing (node : Node) :
  classify node = MarkupProducing <-> returnsJsx (classifyLocals node) = true.
Proof.
  unfold classify. destruct (returnsJsx (classifyLocals node)); split;
    congruence.
Qed.

Lemma classify_Plain (node : Node) :
  classify node = Plain <-> returnsJsx (classifyLocals node) = false.
Proof.
  unfold classify. destruct (returnsJsx (classifyLocals node)); split;
    congruence.
Qed.

(** What the callback does at a function-like node, in one equation. *)
Lemma cbNode_function (node : Node) (c : Counters) :
  isFunctionLike node = true ->
  cbNode node c =
  (match classify node with
   | MarkupProducing =>
       {| jsxFunctionCount := S (jsxFunctionCount c);
          normalFunctionCount := normalFunctionCount c;
          classified := classified c ++ [(node, MarkupProducing)] |}
   | Plain =>
       {| jsxFunctionCount := jsxFunctionCount c;
          normalFunctionCount := S (normalFunctionCount c);
          classified := classified c ++ [(node, Plain)] |}
   end,
   skipCalled (classifyLocals node)).
Proof.
  unfold cbNode, isFunctionLike, classify. intros ->.
  destruct (returnsJsx (classifyLocals node)); reflexivity.
Qed.

Lemma cbNode_other (node : Node) (c : Counters) :
  isFunctionLike node = false -> cbNode node c = (c, false).
Proof.
  unfold cbNode, isFunctionLike. intros ->. reflexivity.
Qed.

(** C2, as the specification has it, fails: for the arrow function
    [() => <div/>] check 1 alone says Plain, since it looks only strictly
    below the body, while the two checks together say MarkupProducing. *)
Lemma check2_changes_concise_arrow :
  isFunctionLike scenarioA = true /\
  classifyByCheck1 scenarioA = Plain /\
  classify scenarioA = MarkupProducing /\
  classifyByCheck1 scenarioA <> classify scenarioA.
Proof.
  repeat split; try reflexivity. discriminate.
Qed.

(** C2, amended: check 1 alone gives the same verdict as the disjunction of
    check 1 and check 2 for every node except, exactly, an arrow function
    whose expression body is itself a markup node with no markup node
    strictly below it (as in [() => <div/>]): there check 1 alone finds
    nothing and says Plain, and check 2 makes the node MarkupProducing.
    When more markup is nested inside such a body (as in
    [() => <div><span/></div>]) check 1 finds it and the two agree. *)
Theorem check2_redundant_except_concise_arrow (node : Node) :
  (classifyByCheck1 node = classify node <->
   conciseMarkupArrow node && negb (markupBelowBody node) = false) /\
  (conciseMarkupArrow node && negb (markupBelowBody node) = true ->
   returnsJsx (check1 node initial) = false /\
   returnsJsx (check2 node (check1 node initial)) = true /\
   classifyByCheck1 node = Plain /\
   classify node = MarkupProducing) /\
  (conciseMarkupArrow node = true ->
   markupBelowBody node = true ->
   returnsJsx (check1 node initial) = true /\
   classifyByCheck1 node = MarkupProducing /\
   classify node = MarkupProducing).
Proof.
  assert (H2 : returnsJsx (check2 node (check1 node initial))
               = markupBelowBody node || conciseMarkupArrow node).
  { change (check2 node (check1 node initial)) with (classifyLocals node).
    rewrite classifyLocals_returnsJsx.
    unfold markupBelowBody, conciseMarkupArrow.
    destruct (getBody node); [reflexivity|]. now rewrite andb_false_r. }
  assert (H1 : returnsJsx (check1 node initial) = markupBelowBody node).
  { apply check1_returnsJsx. }
  unfold classifyByCheck1, classify.
  change (classifyLocals node) with (check2 node (check1 node initial)).
  rewrite H1, H2.
  destruct (markupBelowBody node), (conciseMarkupArrow node); simpl;
    repeat split; congruence.
Qed.

Lemma check2_redundant_except_concise_arrow_witness :
  classifyByCheck1 scenarioC = classify scenarioC /\
  (returnsJsx (check1 scenarioA initial) = false /\
   returnsJsx (check2 scenarioA (check1 scenarioA initial)) = true /\
   classifyByCheck1 scenarioA = Plain /\
   classify scenarioA = MarkupProducing) /\
  (returnsJsx (check1 nestedMarkupArrow initial) = true /\
   classifyByCheck1 nestedMarkupArrow = MarkupProducing /\
   classify nestedMarkupArrow = MarkupProducing).
Proof.
  split; [|split].
  - apply (proj2 (proj1 (check2_redundant_except_concise_arrow scenarioC))).
    reflexivity.
  - apply (proj1 (proj2 (check2_redundant_except_concise_arrow scenarioA))).
    reflexivity.
  - apply (proj2 (proj2
             (check2_redundant_except_concise_arrow nestedMarkupArrow)));
      reflexivity.
Defined.

(** C3: a function-like node with a markup node anywhere in the subtree of
    its body is classified MarkupProducing, whether or not that markup is
    returned.  (The body of a function declaration or function expression is
    a block; only an arrow function can have the markup as its body.) *)
Theorem markup_in_body_is_MarkupProducing (node body m : Node) :
  blockBodied node = true ->
  getBody node = Some body ->
  In m (body :: descendants body) ->
  isJsx m = true ->
  classify node = MarkupProducing.
Proof.
  intros Hwf Hbody Hin Hm. apply classify_MarkupProducing.
  rewrite classifyLocals_returnsJsx, Hbody.
  destruct Hin as [<- | Hin].
  - unfold blockBodied in Hwf. rewrite Hbody in Hwf.
    destruct (isArrowFunction node); simpl in *.
    + rewrite Hm. apply orb_true_r.
    + destruct body; discriminate.
  - apply orb_true_iff. left. apply existsb_exists. exists m. auto.
Qed.

Lemma markup_in_body_is_MarkupProducing_witness :
  classify scenarioC = MarkupProducing.
Proof.
  apply (@markup_in_body_is_MarkupProducing scenarioC
           (Block
              [OtherNode VariableStatement
                 [OtherNode VariableDeclaration [ident; selfClosing]];
               OtherNode ExpressionStatement
                 [OtherNode CallExpression
                    [OtherNode PropertyAccessExpression [ident; ident];
                     ident]];
               ReturnStatement (Some (leaf NullKeyword))])
           selfClosing).
  - reflexivity.
  - reflexivity.
  - simpl. do 4 right. left. reflexivity.
  - reflexivity.
Defined.

(** C4: an arrow function whose expression body is directly a markup node,
    such as [() => <div/>], is classified MarkupProducing. *)
Theorem concise_arrow_is_MarkupProducing (sig : list Node) (body : Node) :
  isJsx body = true ->
  classify (ArrowFunction sig body) = MarkupProducing.
Proof.
  intros Hm. apply classify_MarkupProducing.
  rewrite classifyLocals_returnsJsx. simpl. rewrite Hm. apply orb_true_r.
Qed.

Lemma concise_arrow_is_MarkupProducing_witness :
  classify scenarioA = MarkupProducing.
Proof.
  apply (@concise_arrow_is_MarkupProducing [leaf EqualsGreaterThanToken]
           selfClosing).
  reflexivity.
Defined.

(** C6: a function-like node with an empty body is Plain, and so is every
    function-like node with no markup node in the subtree of its body (its
    top-level return statements then return none either), such as
    [function f(){ return 1 + 1; }]. *)
Theorem no_markup_is_Plain :
  (forall sig,
      classify (FunctionDeclaration sig (Some (Block []))) = Plain /\
      classify (FunctionExpression sig (Block [])) = Plain /\
      classify (ArrowFunction sig (Block [])) = Plain) /\
  (forall node body,
      isFunctionLike node = true ->
      getBody node = Some body ->
      existsb isJsx (body :: descendants body) = false ->
      existsb returnsMarkup (getStatements body) = false /\
      classify node = Plain) /\
  classify scenarioB = Plain.
Proof.
  split; [|split].
  - intros sig. repeat split.
  - intros node body _ Hbody Hno. simpl in Hno.
    apply orb_false_iff in Hno. destruct Hno as [Hb Hd]. split.
    + destruct body; try reflexivity. simpl.
      destruct (existsb returnsMarkup statements) eqn:H; [|reflexivity].
      apply returnsMarkup_descendant in H. congruence.
    + apply classify_Plain. rewrite classifyLocals_returnsJsx, Hbody, Hb, Hd.
      now rewrite andb_false_r.
  - reflexivity.
Qed.

Lemma no_markup_is_Plain_witness :
  existsb returnsMarkup
    (getStatements
       (Block
          [ReturnStatement
             (Some (OtherNode BinaryExpression
                      [leaf NumericLiteral; leaf PlusToken;
                       leaf NumericLiteral]))])) = false /\
  classify scenarioB = Plain.
Proof.
  apply (proj1 (proj2 no_markup_is_Plain) scenarioB); reflexivity.
Defined.

(** C9: a function declaration without a body is taken by the enumerating
    test as a function-like node and classified Plain: neither check does
    anything without a body, so the callback adds one to
    [normalFunctionCount] and leaves [jsxFunctionCount] alone. *)
Theorem bodiless_declaration_is_Plain (sig : list Node) (c : Counters) :
  isFunctionLike (FunctionDeclaration sig None) = true /\
  check1 (FunctionDeclaration sig None) initial = initial /\
  check2 (FunctionDeclaration sig None) initial = initial /\
  classify (FunctionDeclaration sig None) = Plain /\
  cbNode (FunctionDeclaration sig None) c =
    ({| jsxFunctionCount := jsxFunctionCount c;
        normalFunctionCount := S (normalFunctionCount c);
        classified :=
          classified c ++ [(FunctionDeclaration sig None, Plain)] |},
     false) /\
  counts (analyzeSourceFiles "/src" [file [overload]]) =
    {| jsxFunctionCount := 0;
       normalFunctionCount := 1;
       classified := [(overload, Plain)] |}.
Proof.
  repeat split.
Qed.

End ClassifierClaims.

(** ** The run over all source files *)

Module RunFacts.
Import Ast Analyzer Spec TraversalFacts ClassifierFacts ClassifierClaims.

Lemma noCounts_Consistent : Consistent noCounts.
Proof. split; simpl; auto. Qed.

Lemma cbNode_Consistent (n : Node) (c : Counters) :
  Consistent c -> Consistent (fst (cbNode n c)).
Proof.
  intros [Hj Hn Hl]. destruct (isFunctionLike n) eqn:Hf.
  - rewrite cbNode_function by exact Hf.
    destruct (classify n) eqn:Hv; simpl; split; simpl;
      rewrite ?filter_app, ?length_app; simpl; try lia.
    + apply Forall_app; split; [exact Hl|]. constructor; simpl; auto.
    + apply Forall_app; split; [exact Hl|]. constructor; simpl; auto.
  - rewrite cbNode_other by exact Hf. simpl. split; assumption.
Qed.

(** The counters after the loop depend on the files only. *)
Lemma counts_processFiles (files : list SourceFile) (r : Run) :
  counts (fold_left processFile files r) =
  fold_left (fun c sf => forEachDescendant cbNode (sourceNode sf) c)
            files (counts r).
Proof.
  revert r. induction files as [|sf files IH]; simpl; intros r.
  - reflexivity.
  - rewrite IH. reflexivity.
Qed.

Lemma counts_analyzeSourceFiles (folder : string) (files : list SourceFile) :
  counts (analyzeSourceFiles folder files) =
  fold_left (fun c sf => forEachDescendant cbNode (sourceNode sf) c)
            files noCounts.
Proof.
  unfold analyzeSourceFiles. simpl. apply counts_processFiles.
Qed.

Lemma run_Consistent (folder : string) (files : list SourceFile) :
  Consistent (counts (analyzeSourceFiles folder files)).
Proof.
  rewrite counts_analyzeSourceFiles.
  generalize noCounts_Consistent. generalize noCounts.
  induction files as [|sf files IH]; simpl; intros c Hc.
  - exact Hc.
  - apply IH. apply forEachDescendant_invariant; [|exact Hc].
    intros n s. apply cbNode_Consistent.
Qed.

Lemma verdict_partition (l : list (Node * Classification)) :
  List.length (filter (fun e => isMarkupProducing (snd e)) l) +
  List.length (filter (fun e => isPlain (snd e)) l) = List.length l.
Proof.
  induction l as [|[n v] l IH]; simpl; [reflexivity|].
  destruct v; simpl; lia.
Qed.

Lemma enumerated_children (node : Node) :
  enumerated node = flat_map enumeratedAt (forEachChild node).
Proof.
  destruct node as [sig [b|]|sig b|sig b|l|[e|]|l|l|l|k l]; simpl;
    rewrite ?flat_map_app; simpl; rewrite ?app_nil_r; reflexivity.
Qed.

(** The log after a traversal is the log before it followed by the
    enumerated nodes, each with the verdict of [classify]. *)
Lemma forEachDescendant_classified (node : Node) :
  forall c,
    classified (forEachDescendant cbNode node c) =
    classified c ++ verdicts (enumerated node).
Proof.
  induction node as [node IH] using Node_children_ind. intros c.
  rewrite forEachDescendant_children, enumerated_children.
  revert c. induction IH as [|child rest Hchild _ IHrest]; simpl; intros c.
  - now rewrite app_nil_r.
  - rewrite IHrest. unfold verdicts. rewrite map_app, app_assoc. f_equal.
    unfold nodeCallback, enumeratedAt.
    destruct (isFunctionLike child) eqn:Hf.
    + rewrite cbNode_function by exact Hf.
      rewrite classifyLocals_skipCalled. fold (markupBelowBody child).
      destruct (markupBelowBody child); simpl.
      * destruct (classify child); reflexivity.
      * rewrite Hchild. destruct (classify child); simpl;
          rewrite <- app_assoc; reflexivity.
    + rewrite cbNode_other by exact Hf. apply Hchild.
Qed.

Lemma run_classified (folder : string) (files : list SourceFile) :
  classified (counts (analyzeSourceFiles folder files)) =
  verdicts (flat_map (fun sf => enumerated (sourceNode sf)) files).
Proof.
  rewrite counts_analyzeSourceFiles.
  change (verdicts (flat_map (fun sf => enumerated (sourceNode sf)) files))
    with (classified noCounts
            ++ verdicts (flat_map (fun sf => enumerated (sourceNode sf)) files)).
  generalize noCounts.
  induction files as [|sf files IH]; simpl; intros c.
  - now rewrite app_nil_r.
  - rewrite IH, forEachDescendant_classified. unfold verdicts.
    rewrite map_app, app_assoc. reflexivity.
Qed.

(** The body's descendants are among the node's. *)
Lemma body_descendants (node body : Node) :
  getBody node = Some body ->
  exists before, descendants node = before ++ body :: descendants body.
Proof.
  destruct node as [sig [b|]|sig b|sig b|l|e|l|l|l|k l]; simpl;
    try discriminate; intros [= <-]; eexists; reflexivity.
Qed.

Lemma markupBelowBody_descendants (node : Node) :
  existsb isJsx (descendants node) = false -> markupBelowBody node = false.
Proof.
  unfold markupBelowBody. intros H.
  destruct (getBody node) as [b|] eqn:Hb; [|reflexivity].
  destruct (body_descendants node Hb) as [before Hd].
  rewrite Hd, existsb_app in H. simpl in H.
  apply orb_false_iff in H. destruct H as [_ H].
  apply orb_false_iff in H. apply H.
Qed.

(** In a tree without markup nothing is pruned: every function-like
    descendant is enumerated, nested or not. *)
Lemma enumerated_without_markup (node : Node) :
  existsb isJsx (descendants node) = false ->
  enumerated node = filter isFunctionLike (descendants node).
Proof.
  induction node as [node IH] using Node_children_ind.
  rewrite enumerated_children, descendants_children.
  induction IH as [|child rest Hchild _ IHrest]; simpl; intros H.
  - reflexivity.
  - rewrite existsb_app in H.
    apply orb_false_iff in H. destruct H as [_ H].
    apply orb_false_iff in H. destruct H as [Hc Hr].
    rewrite filter_app, <- (IHrest Hr). f_equal.
    unfold enumeratedAt. rewrite (markupBelowBody_descendants child Hc).
    rewrite (Hchild Hc). destruct (isFunctionLike child); reflexivity.
Qed.

(** When markup lies below the body of a function-like node, the step of
    the outer traversal at that node stops at the callback: nothing under
    the node is visited. *)
Lemma markup_function_prunes (node body : Node) (c : Counters) :
  isFunctionLike node = true ->
  getBody node = Some body ->
  existsb isJsx (descendants body) = true ->
  nodeCallback cbNode node c = fst (cbNode node c).
Proof.
  intros Hf Hb Hm. unfold nodeCallback.
  rewrite cbNode_function by exact Hf.
  rewrite classifyLocals_skipCalled, Hb, Hm. reflexivity.
Qed.

End RunFacts.

(** ** Facts about the bounded call stack *)

Module StackFacts.
Import Ast Analyzer Cli Spec Shape TraversalFacts ClassifierFacts.
Import ClassifierClaims RunFacts.

Lemma height_children (node : Node) :
  height node = S (list_max (map height (forEachChild node))).
Proof.
  destruct node as [sig [b|]|sig b|sig b|l|[e|]|l|l|l|k l]; simpl;
    rewrite ?map_app, ?list_max_app; simpl; rewrite ?Nat.max_0_r;
    reflexivity.
Qed.

Lemma height_positive (node : Node) : 1 <= height node.
Proof. rewrite height_children. lia. Qed.

Lemma children_fit (node : Node) (d : nat) :
  height node <= S d -> Forall (fun c => height c <= d) (forEachChild node).
Proof.
  rewrite height_children. intros H.
  assert (Hm : list_max (map height (forEachChild node)) <= d) by lia.
  apply list_max_le in Hm. rewrite Forall_map in Hm. exact Hm.
Qed.

Lemma children_do_not_fit (node : Node) (d : nat) :
  S d < height node -> Exists (fun c => d < height c) (forEachChild node).
Proof.
  rewrite height_children. intros H.
  induction (forEachChild node) as [|c l IH]; simpl in H; [lia|].
  destruct (Nat.lt_ge_cases d (height c)) as [Hc|Hc].
  - apply Exists_cons_hd. exact Hc.
  - apply Exists_cons_tl. apply IH. lia.
Qed.

Lemma bodyHeight_lt (node : Node) : bodyHeight node < height node.
Proof.
  unfold bodyHeight. destruct (getBody node) as [b|] eqn:Hb.
  - destruct node as [sig [b'|]|sig b'|sig b'|l|e|l|l|l|k l]; simpl in *;
      try discriminate; injection Hb as <-; lia.
  - pose proof (height_positive node). lia.
Qed.

Section Bounded.
Variable St : Type.
Variable cbW : nat -> Node -> St -> option (St * bool).
Variable cb : Node -> St -> St * bool.

(** One child's turn in the bounded walk. *)
Local Notation stepWithin d :=
  (fun (acc : option St) (child : Node) =>
     match acc with
     | None => None
     | Some a =>
         match cbW d child a with
         | None => None
         | Some (a', skip) =>
             if skip then Some a' else forEachDescendantWithin cbW d child a'
         end
     end).

Lemma forEachDescendantWithin_S (d : nat) (node : Node) (s : St) :
  forEachDescendantWithin cbW (S d) node s =
  fold_left (stepWithin d) (forEachChild node) (Some s).
Proof. reflexivity. Qed.

Lemma stepWithin_thrown (d : nat) (l : list Node) :
  fold_left (stepWithin d) l None = None.
Proof. induction l as [|c l IH]; simpl; auto. Qed.

(** A bounded walk that returns has done what the unbounded one does. *)
Lemma within_adequate :
  (forall d n s r, cbW d n s = Some r -> cb n s = r) ->
  forall depth node s s',
    forEachDescendantWithin cbW depth node s = Some s' ->
    forEachDescendant cb node s = s'.
Proof.
  intros Hcb depth. induction depth as [|d IH]; intros node s s'.
  - discriminate.
  - rewrite forEachDescendantWithin_S, forEachDescendant_children.
    generalize (forEachChild node). intros l. revert s.
    induction l as [|c l IHl]; simpl; intros s.
    + congruence.
    + unfold nodeCallback at 2.
      destruct (cbW d c s) as [[a' skip]|] eqn:Hc;
        [|rewrite stepWithin_thrown; discriminate].
      rewrite (Hcb d c s _ Hc). destruct skip; [apply IHl|].
      destruct (forEachDescendantWithin cbW d c a') as [a''|] eqn:Hd;
        [|rewrite stepWithin_thrown; discriminate].
      rewrite (IH c a' a'' Hd). apply IHl.
Qed.

(** A stack as deep as the tree is high is enough. *)
Lemma within_sufficient :
  (forall d n s, height n <= d -> cbW d n s = Some (cb n s)) ->
  forall depth node s,
    height node <= depth ->
    forEachDescendantWithin cbW depth node s
      = Some (forEachDescendant cb node s).
Proof.
  intros Hcb depth. induction depth as [|d IH]; intros node s Hh.
  - pose proof (height_positive node). lia.
  - rewrite forEachDescendantWithin_S, forEachDescendant_children.
    pose proof (children_fit node Hh) as Hfit. revert s.
    induction Hfit as [|c l Hc _ IHl]; simpl; intros s; [reflexivity|].
    rewrite (Hcb d c s Hc). unfold nodeCallback at 2.
    destruct (cb c s) as [a' skip]. destruct skip; [apply IHl|].
    rewrite (IH c a' Hc). apply IHl.
Qed.

(** A walk whose callback neither throws nor skips throws on every tree
    higher than the stack is deep. *)
Lemma within_overflow :
  (forall d n s, exists a, cbW d n s = Some (a, false)) ->
  forall depth node s,
    depth < height node ->
    forEachDescendantWithin cbW depth node s = None.
Proof.
  intros Hcb depth. induction depth as [|d IH]; intros node s Hh.
  - reflexivity.
  - rewrite forEachDescendantWithin_S.
    pose proof (children_do_not_fit node Hh) as Hex.
    generalize (Some s). induction Hex as [c l Hc | c l _ IHl]; intros acc;
      simpl.
    + destruct acc as [a|]; simpl; [|apply stepWithin_thrown].
      destruct (Hcb d c a) as [a' Ha]. rewrite Ha.
      rewrite (IH c a' Hc). apply stepWithin_thrown.
    + apply IHl.
Qed.

End Bounded.

Lemma classify_verdictOfShape (node : Node) :
  classify node = verdictOfShape node.
Proof.
  unfold classify, verdictOfShape, markupBelowBody, conciseMarkupArrow.
  rewrite classifyLocals_returnsJsx.
  destruct (getBody node); [reflexivity|]. now rewrite andb_false_r.
Qed.

Lemma check1Within_returns (depth : nat) (node : Node) (l : Locals) :
  bodyHeight node <= depth ->
  check1Within depth node l = Some (check1 node l).
Proof.
  unfold check1Within, check1, bodyHeight.
  destruct (getBody node) as [b|]; [|reflexivity]. intros Hh.
  apply within_sufficient with (cb := check1_cb); auto.
Qed.

Lemma check1Within_throws (depth : nat) (node : Node) (l : Locals) :
  depth < bodyHeight node -> check1Within depth node l = None.
Proof.
  unfold check1Within, bodyHeight.
  destruct (getBody node) as [b|]; [|lia]. intros Hh.
  apply within_overflow; [|exact Hh].
  intros d n s. unfold check1_cb. destruct (isJsx n); eauto.
Qed.

Lemma classifyWithin_returns (depth : nat) (node : Node) :
  bodyHeight node <= depth -> classifyWithin depth node = Some (classify node).
Proof.
  intros Hh. unfold classifyWithin. rewrite check1Within_returns by exact Hh.
  reflexivity.
Qed.

Lemma classifyWithin_throws (depth : nat) (node : Node) :
  depth < bodyHeight node -> classifyWithin depth node = None.
Proof.
  intros Hh. unfold classifyWithin. rewrite check1Within_throws by exact Hh.
  reflexivity.
Qed.

Lemma classifyWithin_adequate (depth : nat) (node : Node)
    (v : Classification) :
  classifyWithin depth node = Some v -> v = classify node.
Proof.
  destruct (Nat.le_gt_cases (bodyHeight node) depth) as [Hh|Hh].
  - rewrite classifyWithin_returns by exact Hh. congruence.
  - rewrite classifyWithin_throws by exact Hh. discriminate.
Qed.

Lemma cbNodeWithin_returns (depth : nat) (node : Node) (c : Counters) :
  bodyHeight node <= depth -> cbNodeWithin depth node c = Some (cbNode node c).
Proof.
  intros Hh. unfold cbNodeWithin, cbNode, classifyLocals.
  rewrite check1Within_returns by exact Hh. simpl.
  destruct (isFunctionDeclaration node || isArrowFunction node
            || isFunctionExpression node); reflexivity.
Qed.

Lemma cbNodeWithin_throws (depth : nat) (node : Node) (c : Counters) :
  isFunctionLike node = true ->
  depth < bodyHeight node ->
  cbNodeWithin depth node c = None.
Proof.
  unfold isFunctionLike, cbNodeWithin. intros -> Hh.
  rewrite check1Within_throws by exact Hh. reflexivity.
Qed.

Lemma cbNodeWithin_adequate (depth : nat) (node : Node) (c : Counters)
    (r : Counters * bool) :
  cbNodeWithin depth node c = Some r -> cbNode node c = r.
Proof.
  destruct (Nat.le_gt_cases (bodyHeight node) depth) as [Hh|Hh].
  - rewrite cbNodeWithin_returns by exact Hh. congruence.
  - destruct (isFunctionLike node) eqn:Hf.
    + rewrite cbNodeWithin_throws by assumption. discriminate.
    + rewrite cbNode_other by exact Hf.
      unfold cbNodeWithin. unfold isFunctionLike in Hf. rewrite Hf.
      congruence.
Qed.

Lemma outerWalk_adequate (depth : nat) (node : Node) (c c' : Counters) :
  forEachDescendantWithin cbNodeWithin depth node c = Some c' ->
  forEachDescendant cbNode node c = c'.
Proof.
  apply within_adequate. exact cbNodeWithin_adequate.
Qed.

Lemma outerWalk_sufficient (depth : nat) (node : Node) (c : Counters) :
  height node <= depth ->
  forEachDescendantWithin cbNodeWithin depth node c
    = Some (forEachDescendant cbNode node c).
Proof.
  apply within_sufficient. intros d n s Hh. apply cbNodeWithin_returns.
  pose proof (bodyHeight_lt n). lia.
Qed.

Lemma processFilesWithin_adequate (depth : nat) (files : list SourceFile) :
  forall r r',
    processFilesWithin depth files r = inr r' ->
    r' = fold_left processFile files r.
Proof.
  induction files as [|sf files IH]; simpl; intros r r'.
  - congruence.
  - destruct (forEachDescendantWithin cbNodeWithin depth (sourceNode sf)
                (counts r)) as [c|] eqn:Hw; [|discriminate].
    intros H. apply IH in H. rewrite H. f_equal. unfold processFile.
    rewrite (outerWalk_adequate _ _ _ Hw). reflexivity.
Qed.

Lemma processFilesWithin_sufficient (depth : nat) (files : list SourceFile) :
  (forall sf, In sf files -> height (sourceNode sf) <= depth) ->
  forall r, processFilesWithin depth files r = inr (fold_left processFile files r).
Proof.
  induction files as [|sf files IH]; simpl; intros Hfit r; [reflexivity|].
  rewrite outerWalk_sufficient by (apply Hfit; left; reflexivity).
  apply IH. intros sf' Hsf. apply Hfit. right. exact Hsf.
Qed.


Lemma analyzeSourceFilesWithin_adequate (depth : nat) (folder : string)
    (files : list SourceFile) (r : Run) :
  analyzeSourceFilesWithin depth folder files = inr r ->
  r = analyzeSourceFiles folder files.
Proof.
  unfold analyzeSourceFilesWithin, analyzeSourceFiles.
  destruct (processFilesWithin depth files _) as [w|r'] eqn:Hp;
    [discriminate|].
  apply processFilesWithin_adequate in Hp. rewrite Hp. congruence.
Qed.

Lemma analyzeSourceFilesWithin_sufficient (depth : nat) (folder : string)
    (files : list SourceFile) :
  (forall sf, In sf files -> height (sourceNode sf) <= depth) ->
  analyzeSourceFilesWithin depth folder files
    = inr (analyzeSourceFiles folder files).
Proof.
  intros Hfit. unfold analyzeSourceFilesWithin, analyzeSourceFiles.
  rewrite processFilesWithin_sufficient by exact Hfit. reflexivity.
Qed.

End StackFacts.

Module RunClaims.
Import Ast Analyzer Cli Spec Shape TraversalFacts ClassifierFacts.
Import ClassifierClaims RunFacts StackFacts Samples Cases.

(** C1 fails on the code.  In Scenario D check 1 finds [<p/>] below the
    body of [outer] and calls [skip()] on the control object of the outer
    traversal, so the traversal never descends into [outer]: [inner] is a
    function declaration below the source file, the classifier would call it
    MarkupProducing, yet it is never enumerated and only one counter
    increment happens.  The same pair of functions without the markup is
    enumerated in full. *)
Theorem scenario_D_inner_not_enumerated :
  In inner (descendants (sourceNode (file [outer]))) /\
  isFunctionLike inner = true /\
  classify inner = MarkupProducing /\
  enumerated (sourceNode (file [outer])) = [outer] /\
  counts (analyzeSourceFiles "/src" [file [outer]]) =
    {| jsxFunctionCount := 1;
       normalFunctionCount := 0;
       classified := [(outer, MarkupProducing)] |} /\
  ~ In inner
      (map fst (classified (counts (analyzeSourceFiles "/src" [file [outer]]))))
  /\
  counts (analyzeSourceFiles "/src" [file [outerPlain]]) =
    {| jsxFunctionCount := 0;
       normalFunctionCount := 2;
       classified := [(outerPlain, Plain); (innerPlain, Plain)] |}.
Proof.
  repeat split.
  - simpl. do 3 right. left. reflexivity.
  - simpl. intros [H|[]]. discriminate H.
Qed.

(** C5: after a run the two counters add up to the number of function-like
    nodes enumerated across all files; every enumerated node added one to
    exactly one counter and no other node touched them; the last line of the
    report prints the sum of the two counters. *)
Theorem counters_sum_to_enumerated :
  (forall folder files,
      let r := analyzeSourceFiles folder files in
      let c := counts r in
      map fst (classified c)
        = flat_map (fun sf => enumerated (sourceNode sf)) files /\
      jsxFunctionCount c + normalFunctionCount c
        = List.length (flat_map (fun sf => enumerated (sourceNode sf)) files) /\
      jsxFunctionCount c =
        List.length
          (filter (fun e => isMarkupProducing (snd e)) (classified c)) /\
      normalFunctionCount c =
        List.length (filter (fun e => isPlain (snd e)) (classified c)) /\
      Forall (fun e => isFunctionLike (fst e) = true) (classified c) /\
      last (stdout r) EmptyString =
        ("Total functions found: "
           ++ show (jsxFunctionCount c + normalFunctionCount c))%string) /\
  (forall node c,
      isFunctionLike node = true ->
      let c' := fst (cbNode node c) in
      List.length (classified c') = S (List.length (classified c)) /\
      ((jsxFunctionCount c' = S (jsxFunctionCount c) /\
        normalFunctionCount c' = normalFunctionCount c) \/
       (jsxFunctionCount c' = jsxFunctionCount c /\
        normalFunctionCount c' = S (normalFunctionCount c)))) /\
  (forall node c,
      isFunctionLike node = false -> fst (cbNode node c) = c).
Proof.
  split; [|split].
  - intros folder files r c.
    destruct (run_Consistent folder files) as [Hj Hn Hl].
    pose proof (run_classified folder files) as Hlog.
    fold r in Hj, Hn, Hl, Hlog. fold c in Hj, Hn, Hl, Hlog.
    assert (Hnodes : map fst (classified c)
                     = flat_map (fun sf => enumerated (sourceNode sf)) files).
    { rewrite Hlog. unfold verdicts. rewrite map_map. simpl. apply map_id. }
    repeat split.
    + exact Hnodes.
    + rewrite <- Hnodes, length_map, Hj, Hn. apply verdict_partition.
    + exact Hj.
    + exact Hn.
    + eapply Forall_impl; [|exact Hl]. intros e [H _]. exact H.
    + subst r c. unfold analyzeSourceFiles. cbn [stdout counts].
      match goal with
      | |- last (?X ++ [?a; ?b; ?c; ?d; ?e]) _ = _ =>
          change (X ++ [a; b; c; d; e]) with (X ++ ([a; b; c; d] ++ [e]))
      end.
      rewrite app_assoc. apply last_last.
  - intros node c Hf c'. subst c'. rewrite cbNode_function by exact Hf.
    destruct (classify node); simpl; rewrite length_app; simpl;
      split; try lia; auto.
  - intros node c Hf. rewrite cbNode_other by exact Hf. reflexivity.
Qed.

Lemma counters_sum_to_enumerated_witness :
  (let c' := fst (cbNode scenarioB noCounts) in
   List.length (classified c') = S (List.length (classified noCounts)) /\
   ((jsxFunctionCount c' = S (jsxFunctionCount noCounts) /\
     normalFunctionCount c' = normalFunctionCount noCounts) \/
    (jsxFunctionCount c' = jsxFunctionCount noCounts /\
     normalFunctionCount c' = S (normalFunctionCount noCounts)))) /\
  fst (cbNode selfClosing noCounts) = noCounts.
Proof.
  split.
  - apply (proj1 (proj2 counters_sum_to_enumerated) scenarioB noCounts).
    reflexivity.
  - apply (proj2 (proj2 counters_sum_to_enumerated) selfClosing noCounts).
    reflexivity.
Defined.

(** C7, as the specification has it, fails: classification can fail.  The
    walk of check 1 is recursive, so on a body nested deeper than the call
    stack holds it throws; the same node is classified on a deeper stack. *)
Lemma classification_throws_on_deep_body :
  isFunctionLike (deepFunction 2000) = true /\
  classifyWithin 1000 (deepFunction 2000) = None /\
  cbNodeWithin 1000 (deepFunction 2000) noCounts = None /\
  classifyWithin 3000 (deepFunction 2000) = Some Plain.
Proof.
  repeat split; vm_compute; reflexivity.
Qed.

(** C7, amended: whenever classification returns, its verdict is a
    deterministic function of the node's subtree alone (MarkupProducing when
    markup lies strictly below the body or the node is an arrow function
    whose body is markup, Plain otherwise): two classifications of the same
    node that return agree, whatever stack and counters they ran with, and
    every node counted by a completed run carries that verdict.
    Classification returns when the stack left at the node holds the walk of
    check 1 over the body, and throws when the body is nested deeper than
    that. *)
Theorem classification_is_a_function_of_the_subtree_when_it_returns :
  (forall depth node c,
      bodyHeight node <= depth ->
      classifyWithin depth node = Some (verdictOfShape node) /\
      cbNodeWithin depth node c = Some (cbNode node c)) /\
  (forall depth node c,
      isFunctionLike node = true ->
      depth < bodyHeight node ->
      classifyWithin depth node = None /\
      cbNodeWithin depth node c = None) /\
  (forall depth1 depth2 node v1 v2,
      classifyWithin depth1 node = Some v1 ->
      classifyWithin depth2 node = Some v2 ->
      v1 = v2 /\ v1 = verdictOfShape node) /\
  (forall depth folder files r n v,
      analyzeSourceFilesWithin depth folder files = inr r ->
      In (n, v) (classified (counts r)) ->
      v = verdictOfShape n).
Proof.
  split; [|split; [|split]].
  - intros depth node c Hh. split.
    + rewrite classifyWithin_returns by exact Hh.
      now rewrite classify_verdictOfShape.
    + apply cbNodeWithin_returns. exact Hh.
  - intros depth node c Hf Hh. split.
    + apply classifyWithin_throws. exact Hh.
    + apply cbNodeWithin_throws; assumption.
  - intros depth1 depth2 node v1 v2 H1 H2.
    apply classifyWithin_adequate in H1, H2.
    rewrite H1, H2, classify_verdictOfShape. auto.
  - intros depth folder files r n v Hr Hin.
    apply analyzeSourceFilesWithin_adequate in Hr. subst r.
    destruct (run_Consistent folder files) as [_ _ Hl].
    rewrite Forall_forall in Hl. destruct (Hl (n, v) Hin) as [_ Hv].
    simpl in Hv. rewrite Hv. apply classify_verdictOfShape.
Qed.

Lemma classification_is_a_function_of_the_subtree_when_it_returns_witness :
  (classifyWithin 10 scenarioC = Some (verdictOfShape scenarioC) /\
   cbNodeWithin 10 scenarioC noCounts = Some (cbNode scenarioC noCounts)) /\
  (classifyWithin 2 scenarioC = None /\
   cbNodeWithin 2 scenarioC noCounts = None) /\
  (MarkupProducing = MarkupProducing /\
   MarkupProducing = verdictOfShape scenarioA) /\
  MarkupProducing = verdictOfShape scenarioC.
Proof.
  split; [|split; [|split]].
  - apply (proj1 classification_is_a_function_of_the_subtree_when_it_returns
             10 scenarioC noCounts).
    vm_compute. lia.
  - apply (proj1 (proj2
             classification_is_a_function_of_the_subtree_when_it_returns)
             2 scenarioC noCounts).
    + reflexivity.
    + vm_compute. lia.
  - apply (proj1 (proj2 (proj2
             classification_is_a_function_of_the_subtree_when_it_returns))
             5 9 scenarioA MarkupProducing MarkupProducing); reflexivity.
  - apply (proj2 (proj2 (proj2
             classification_is_a_function_of_the_subtree_when_it_returns))
             100 "/src" [file [scenarioB; scenarioC]]
             (analyzeSourceFiles "/src" [file [scenarioB; scenarioC]])
             scenarioC MarkupProducing).
    + reflexivity.
    + simpl. right. left. reflexivity.
Defined.

(** C10: only function declarations, function expressions and arrow
    functions are enumerated and counted.  The callback leaves the counters
    alone at every other node (a method, a constructor, a getter or a setter
    among them) and asks for no skip there; every node a run has counted is
    of one of the three kinds; a class whose method returns markup adds
    nothing to either counter. *)
Theorem only_functions_are_counted :
  (forall kind children c, cbNode (OtherNode kind children) c = (c, false)) /\
  (forall node c,
      isFunctionDeclaration node = false ->
      isArrowFunction node = false ->
      isFunctionExpression node = false ->
      cbNode node c = (c, false)) /\
  (forall folder files,
      let c := counts (analyzeSourceFiles folder files) in
      jsxFunctionCount c + normalFunctionCount c
        = List.length (classified c) /\
      forall n v,
        In (n, v) (classified c) ->
        isFunctionDeclaration n = true \/ isArrowFunction n = true \/
        isFunctionExpression n = true) /\
  counts (analyzeSourceFiles "/src" [file [classWithRender]]) = noCounts.
Proof.
  split; [|split; [|split]].
  - reflexivity.
  - intros node c H1 H2 H3. apply cbNode_other.
    unfold isFunctionLike. rewrite H1, H2, H3. reflexivity.
  - intros folder files c.
    destruct (run_Consistent folder files) as [Hj Hn Hl].
    fold c in Hj, Hn, Hl. split.
    + rewrite Hj, Hn. apply verdict_partition.
    + intros n v Hin. rewrite Forall_forall in Hl.
      destruct (Hl (n, v) Hin) as [Hf _]. simpl in Hf.
      unfold isFunctionLike in Hf.
      apply orb_true_iff in Hf. destruct Hf as [Hf|Hf]; [|auto].
      apply orb_true_iff in Hf. destruct Hf; auto.
  - reflexivity.
Qed.

Lemma only_functions_are_counted_witness :
  cbNode (OtherNode MethodDeclaration
            [ident; Block [ReturnStatement (Some selfClosing)]]) noCounts
    = (noCounts, false) /\
  (isFunctionDeclaration scenarioA = true \/ isArrowFunction scenarioA = true \/
   isFunctionExpression scenarioA = true).
Proof.
  split.
  - apply (proj1 (proj2 only_functions_are_counted)); reflexivity.
  - apply (proj2 (proj1 (proj2 (proj2 only_functions_are_counted)) "/src"
                    [file [classWithRender; scenarioA]])
             scenarioA MarkupProducing).
    simpl. left. reflexivity.
Defined.

End RunClaims.

(** ** The driver *)

Module DriverClaims.
Import Ast Analyzer Cli Spec Shape StackFacts Samples.

(** A run that gets through: the report is printed and the exit code
    is 0. *)
Lemma main_success (e : Env) (a : string) (files : list SourceFile) :
  argv2 e = Some a ->
  a <> EmptyString ->
  existsSync e (resolve e a) = true ->
  statIsDirectory e (resolve e a) = true ->
  getSourceFiles e
    [replaceBackslashes (join e (resolve e a) "**/*.{ts,tsx}");
     "!**/node_modules/**"; "!**/dist/**"] = inr files ->
  (forall sf, In sf files -> height (sourceNode sf) <= stackDepth e) ->
  main e =
  {| exitCode := 0;
     out := stdout (analyzeSourceFiles (resolve e a) files);
     err := [] |}.
Proof.
  intros Ha Hne Hex Hdir Hload Hfit. unfold main. rewrite Ha.
  destruct a as [|ch rest]; [congruence|]. simpl falsy. cbv iota.
  rewrite Hex, Hdir. simpl. unfold analyzeFunctions. rewrite Hload.
  rewrite analyzeSourceFilesWithin_sufficient by exact Hfit.
  reflexivity.
Qed.

(** Scenario E: an empty target folder gives a report of zeros and exit
    code 0. *)
Lemma scenario_E_empty_folder :
  main envEmptyFolder =
  {| exitCode := 0;
     out := [ "Analyzing 0 files in /src...";
              String "010" "--- Analysis Complete ---";
              "Total Files Analyzed: 0";
              "Functions returning JSX (heuristic): 0";
              "Other functions: 0";
              "Total functions found: 0" ];
     err := [] |}.
Proof.
  rewrite (@main_success envEmptyFolder "/src" []); try reflexivity.
  - discriminate.
  - intros sf [].
Qed.

(** C8: the process exits with code 1, writes a diagnostic to standard
    error and prints no report when no argument is supplied or when the
    argument does not resolve to an existing directory, a nonexistent path
    included; an error raised during the analysis also ends in exit code 1
    with a diagnostic on standard error. *)
Theorem failures_exit_1 (e : Env) :
  (argv2 e = None ->
   exitCode (main e) = 1 /\ err (main e) <> [] /\ out (main e) = []) /\
  (forall a,
      argv2 e = Some a ->
      existsSync e (resolve e a) && statIsDirectory e (resolve e a) = false ->
      exitCode (main e) = 1 /\ err (main e) <> [] /\ out (main e) = []) /\
  (forall a,
      argv2 e = Some a ->
      existsSync e (resolve e a) = false ->
      exitCode (main e) = 1 /\ err (main e) <> [] /\ out (main e) = []) /\
  (forall a o error,
      argv2 e = Some a ->
      analyzeFunctions e (resolve e a) = Rejected o error ->
      exitCode (main e) = 1 /\ err (main e) <> []).
Proof.
  assert (Hbad : forall a,
             argv2 e = Some a ->
             existsSync e (resolve e a) && statIsDirectory e (resolve e a)
               = false ->
             exitCode (main e) = 1 /\ err (main e) <> [] /\ out (main e) = []).
  { intros a Ha Hbad. unfold main. rewrite Ha.
    destruct a as [|ch rest]; simpl falsy; cbv iota.
    - repeat split. discriminate.
    - rewrite <- negb_andb, Hbad. simpl. repeat split. discriminate. }
  split; [|split; [|split]].
  - intros Ha. unfold main. rewrite Ha. simpl. repeat split. discriminate.
  - exact Hbad.
  - intros a Ha Hex. apply (Hbad a Ha). rewrite Hex. reflexivity.
  - intros a o error Ha Hrej.
    destruct (existsSync e (resolve e a) && statIsDirectory e (resolve e a))
      eqn:Hok.
    + unfold main. rewrite Ha.
      destruct a as [|ch rest]; simpl falsy; cbv iota.
      * split; [reflexivity|discriminate].
      * rewrite <- negb_andb, Hok. simpl. rewrite Hrej. simpl.
        split; [reflexivity|discriminate].
    + destruct (Hbad a Ha Hok) as (H1 & H2 & _). auto.
Qed.

Lemma failures_exit_1_witness :
  (exitCode (main envNoArgument) = 1 /\ err (main envNoArgument) <> [] /\
   out (main envNoArgument) = []) /\
  (exitCode (main envNotADirectory) = 1 /\
   err (main envNotADirectory) <> [] /\ out (main envNotADirectory) = []) /\
  (exitCode (main envMissingPath) = 1 /\ err (main envMissingPath) <> [] /\
   out (main envMissingPath) = []) /\
  (exitCode (main envLoadFails) = 1 /\ err (main envLoadFails) <> []).
Proof.
  split; [|split; [|split]].
  - apply (proj1 (failures_exit_1 envNoArgument)). reflexivity.
  - apply (proj1 (proj2 (failures_exit_1 envNotADirectory)) "/src/a.ts");
      reflexivity.
  - apply (proj1 (proj2 (proj2 (failures_exit_1 envMissingPath))) "/nowhere");
      reflexivity.
  - apply (proj2 (proj2 (proj2 (failures_exit_1 envLoadFails))) "/src" []
             "EACCES: permission denied");
      reflexivity.
Defined.

End DriverClaims.

(** ** Further properties of the two checks *)

Module ClassifierProperties.
Import Ast Analyzer Spec Shape TraversalFacts ClassifierFacts Samples Cases.

Lemma conciseMarkupArrow_isFunctionLike (node : Node) :
  conciseMarkupArrow node = true -> isFunctionLike node = true.
Proof.
  unfold conciseMarkupArrow, isFunctionLike.
  destruct (isArrowFunction node); [intros _|discriminate].
  now rewrite orb_true_r.
Qed.

Lemma getBody_isFunctionLike (node body : Node) :
  getBody node = Some body -> isFunctionLike node = true.
Proof. destruct node; simpl; try discriminate; reflexivity. Qed.

Lemma classify_MarkupProducing_iff (node : Node) :
  classify node = MarkupProducing <->
  markupBelowBody node = true \/ conciseMarkupArrow node = true.
Proof.
  unfold classify, markupBelowBody, conciseMarkupArrow.
  rewrite classifyLocals_returnsJsx.
  destruct (getBody node) as [b|].
  - rewrite <- orb_true_iff.
    destruct (existsb isJsx (descendants b) || isArrowFunction node && isJsx b);
      split; congruence.
  - rewrite andb_false_r. split; [discriminate|]. intros [H|H]; discriminate.
Qed.

(** X1: the verdict, exactly: a node is MarkupProducing when, and only when,
    a markup node lies strictly below its body or it is an arrow function
    whose body is itself a markup node. *)
Theorem MarkupProducing_exactly (node : Node) :
  classify node = MarkupProducing <->
  markupBelowBody node = true \/ conciseMarkupArrow node = true.
Proof.
  split.
  - intros H. apply classify_MarkupProducing_iff in H.
    destruct H as [H|H]; [left|right]; exact H.
  - intros [H|H]; apply classify_MarkupProducing_iff; [left|right]; exact H.
Qed.

Lemma MarkupProducing_exactly_witness :
  classify conditional = MarkupProducing /\
  (markupBelowBody scenarioA = true \/ conciseMarkupArrow scenarioA = true).
Proof.
  split.
  - apply (proj2 (MarkupProducing_exactly conditional)). left. reflexivity.
  - apply (proj1 (MarkupProducing_exactly scenarioA)). reflexivity.
Defined.

(** X2: check 2 in closed form: it raises [returnsJsx] exactly for an arrow
    function whose body is itself markup and for a function-like node whose
    block body has a top-level [return] of a markup node; it never lowers
    the flag and never touches the skip flag.  A [return] of markup inside a
    nested block is not seen by it. *)
Theorem check2_closed_form (node : Node) (l : Locals) :
  returnsJsx (check2 node l) =
    returnsJsx l || conciseMarkupArrow node || returnsMarkupDirectly node /\
  skipCalled (check2 node l) = skipCalled l /\
  returnsJsx (check2 conditional initial) = false.
Proof.
  split; [|split].
  - rewrite check2_returnsJsx.
    unfold conciseMarkupArrow, returnsMarkupDirectly, isFunctionLike.
    destruct node as [sig [b|]|sig b|sig b|st|e|ps|ps|ps|k cs]; simpl;
      rewrite ?orb_false_r, <- ?orb_assoc; reflexivity.
  - apply check2_skipCalled.
  - reflexivity.
Qed.

(** X3: the verdict depends on the body alone: a function declaration and a
    function expression with the same body get the same verdict whatever
    their names and parameters are, and an arrow function agrees with them
    unless its body is itself a markup node.  Markup in a parameter default
    does not count. *)
Theorem verdict_ignores_signature :
  (forall sig1 sig2 body,
      classify (FunctionDeclaration sig1 (Some body))
        = classify (FunctionExpression sig2 body)) /\
  (forall sig1 sig2 body,
      classify (FunctionDeclaration sig1 (Some body))
        = classify (FunctionDeclaration sig2 (Some body))) /\
  (forall sig1 sig2 body,
      isJsx body = false ->
      classify (ArrowFunction sig1 body)
        = classify (FunctionExpression sig2 body)) /\
  (forall sig1 sig2 body,
      classify (ArrowFunction sig1 body) = classify (ArrowFunction sig2 body)).
Proof.
  unfold classify. repeat split; intros;
    rewrite !classifyLocals_returnsJsx; simpl;
    rewrite ?orb_false_r; try reflexivity.
  rewrite H, orb_false_r. reflexivity.
Qed.

Lemma verdict_ignores_signature_witness :
  classify (ArrowFunction [leaf EqualsGreaterThanToken] (Block []))
    = classify (FunctionExpression
                  [ident; OtherNode ParameterDeclaration [ident; selfClosing]]
                  (Block [])).
Proof.
  apply (proj1 (proj2 (proj2 verdict_ignores_signature))). reflexivity.
Defined.

(** Transitivity of [descendants]. *)
Lemma descendants_trans (a b : Node) :
  In a (descendants b) -> incl (descendants a) (descendants b).
Proof.
  induction b as [b IH] using Node_children_ind.
  rewrite (descendants_children b). intros Hin x Hx.
  apply in_flat_map in Hin. destruct Hin as [c [Hc Hin]].
  apply in_flat_map. exists c. split; [exact Hc|].
  rewrite Forall_forall in IH.
  destruct Hin as [<- | Hin].
  - right. exact Hx.
  - right. apply (IH c Hc Hin). exact Hx.
Qed.

Lemma body_in_descendants (node body : Node) :
  getBody node = Some body -> In body (descendants node).
Proof.
  destruct node as [sig [b|]|sig b|sig b|l|e|l|l|l|k l]; simpl;
    try discriminate; intros [= <-]; apply in_or_app; right; left; reflexivity.
Qed.

(** A markup node at or below the body of a MarkupProducing node. *)
Lemma MarkupProducing_markup (node : Node) :
  classify node = MarkupProducing ->
  exists m, In m (descendants node) /\ isJsx m = true.
Proof.
  intros H. apply classify_MarkupProducing_iff in H.
  unfold markupBelowBody, conciseMarkupArrow in H.
  destruct (getBody node) as [b|] eqn:Hb.
  - pose proof (body_in_descendants node Hb) as Hbin.
    destruct H as [H|H].
    + apply existsb_exists in H. destruct H as [m [Hm Hj]].
      exists m. split; [|exact Hj]. apply (descendants_trans _ _ Hbin). exact Hm.
    + apply andb_true_iff in H. destruct H as [_ Hj]. exists b. auto.
  - destruct H as [H|H]; [discriminate|].
    rewrite andb_false_r in H. discriminate.
Qed.

(** X4: verdicts propagate outwards: a function-like node that has a
    MarkupProducing node as its body or anywhere below its body is
    MarkupProducing itself, whatever it returns. *)
Theorem enclosing_function_is_MarkupProducing (outer_ body inner_ : Node) :
  getBody outer_ = Some body ->
  In inner_ (body :: descendants body) ->
  classify inner_ = MarkupProducing ->
  classify outer_ = MarkupProducing.
Proof.
  intros Hb Hin Hv. apply classify_MarkupProducing_iff. left.
  unfold markupBelowBody. rewrite Hb.
  destruct (MarkupProducing_markup inner_ Hv) as [m [Hm Hj]].
  apply existsb_exists. exists m. split; [|exact Hj].
  destruct Hin as [<- | Hin]; [exact Hm|].
  apply (descendants_trans _ _ Hin). exact Hm.
Qed.

Lemma enclosing_function_is_MarkupProducing_witness :
  classify wrapper = MarkupProducing.
Proof.
  apply (@enclosing_function_is_MarkupProducing wrapper scenarioA scenarioA).
  - reflexivity.
  - left. reflexivity.
  - reflexivity.
Defined.

End ClassifierProperties.

(** ** Further properties of the enumeration *)

Module EnumerationProperties.
Import Ast Analyzer Spec Shape TraversalFacts ClassifierFacts ClassifierClaims.
Import RunFacts ClassifierProperties Samples Cases.

Lemma markupBelowBody_isFunctionLike (node : Node) :
  markupBelowBody node = true -> isFunctionLike node = true.
Proof.
  unfold markupBelowBody. destruct (getBody node) as [b|] eqn:Hb;
    [intros _|discriminate].
  apply (getBody_isFunctionLike node Hb).
Qed.

Lemma cbNode_skip (node : Node) (c : Counters) :
  snd (cbNode node c) = markupBelowBody node.
Proof.
  destruct (isFunctionLike node) eqn:Hf.
  - rewrite cbNode_function by exact Hf. simpl.
    apply classifyLocals_skipCalled.
  - rewrite cbNode_other by exact Hf. simpl.
    destruct (markupBelowBody node) eqn:Hm; [|reflexivity].
    apply markupBelowBody_isFunctionLike in Hm. congruence.
Qed.

(** X5: the outer traversal is cut exactly where check 1 fires.  The callback
    asks for a skip when, and only when, markup lies strictly below the body
    of the node; the step at such a node counts the node as MarkupProducing
    and visits nothing under it; at every other node the step goes on into
    the children, also under an arrow function that check 2 alone made
    MarkupProducing. *)
Theorem traversal_cut_where_check1_fires :
  (forall node c, snd (cbNode node c) = markupBelowBody node) /\
  (forall node c,
      markupBelowBody node = true ->
      nodeCallback cbNode node c =
        {| jsxFunctionCount := S (jsxFunctionCount c);
           normalFunctionCount := normalFunctionCount c;
           classified := classified c ++ [(node, MarkupProducing)] |}) /\
  (forall node c,
      markupBelowBody node = false ->
      nodeCallback cbNode node c =
        forEachDescendant cbNode node (fst (cbNode node c))).
Proof.
  split; [exact cbNode_skip|split].
  - intros node c Hm. unfold nodeCallback.
    pose proof (cbNode_skip node c) as Hs. rewrite Hm in Hs.
    pose proof (markupBelowBody_isFunctionLike node Hm) as Hf.
    assert (Hv : classify node = MarkupProducing).
    { apply classify_MarkupProducing_iff. left. exact Hm. }
    rewrite cbNode_function in * by exact Hf. rewrite Hv in *.
    simpl in Hs. rewrite Hs. reflexivity.
  - intros node c Hm. unfold nodeCallback.
    pose proof (cbNode_skip node c) as Hs. rewrite Hm in Hs.
    destruct (cbNode node c) as [c' skip]. simpl in *. subst skip.
    reflexivity.
Qed.

Lemma traversal_cut_where_check1_fires_witness :
  nodeCallback cbNode wrapper noCounts =
    {| jsxFunctionCount := 1;
       normalFunctionCount := 0;
       classified := [(wrapper, MarkupProducing)] |} /\
  nodeCallback cbNode handler noCounts =
    forEachDescendant cbNode handler (fst (cbNode handler noCounts)).
Proof.
  split.
  - apply (proj1 (proj2 traversal_cut_where_check1_fires) wrapper noCounts).
    reflexivity.
  - apply (proj2 (proj2 traversal_cut_where_check1_fires) handler noCounts).
    reflexivity.
Defined.

Lemma enumeratedAt_self (n : Node) :
  isFunctionLike n = true -> In n (enumeratedAt n).
Proof. unfold enumeratedAt. intros ->. left. reflexivity. Qed.

Lemma enumeratedAt_below (n : Node) :
  markupBelowBody n = false -> incl (enumerated n) (enumeratedAt n).
Proof.
  unfold enumeratedAt. intros ->. intros x Hx.
  destruct (isFunctionLike n); [right|]; exact Hx.
Qed.

Lemma enumeratedAt_inv (c n : Node) :
  In n (enumeratedAt c) ->
  (n = c /\ isFunctionLike c = true) \/
  (markupBelowBody c = false /\ In n (enumerated c)).
Proof.
  unfold enumeratedAt. destruct (isFunctionLike c) eqn:Hf.
  - intros [<- | Hin]; [left; auto|].
    destruct (markupBelowBody c); [destruct Hin|]. right. auto.
  - intros Hin. right. split; [|exact Hin].
    destruct (markupBelowBody c) eqn:Hm; [|reflexivity].
    apply markupBelowBody_isFunctionLike in Hm. congruence.
Qed.

Lemma Reached_under (root c n : Node) :
  In c (forEachChild root) ->
  markupBelowBody c = false ->
  Reached c n ->
  Reached root n.
Proof.
  intros Hc Hm Hr. induction Hr as [n Hn | p n Hp IH Hmp Hn].
  - apply Reached_below with (p := c); auto. apply Reached_child. exact Hc.
  - apply Reached_below with (p := p); auto.
Qed.

Lemma enumerated_Reached (root : Node) :
  forall n, In n (enumerated root) ->
            isFunctionLike n = true /\ Reached root n.
Proof.
  induction root as [root IH] using Node_children_ind.
  intros n. rewrite enumerated_children. intros Hin.
  apply in_flat_map in Hin. destruct Hin as [c [Hc Hin]].
  rewrite Forall_forall in IH.
  destruct (enumeratedAt_inv c n Hin) as [[-> Hf] | [Hm Hn]].
  - split; [exact Hf|]. apply Reached_child. exact Hc.
  - destruct (IH c Hc n Hn) as [Hf Hr]. split; [exact Hf|].
    apply (Reached_under root Hc Hm Hr).
Qed.

Lemma child_enumerated (p n : Node) :
  In n (forEachChild p) -> isFunctionLike n = true -> In n (enumerated p).
Proof.
  intros Hn Hf. rewrite enumerated_children. apply in_flat_map.
  exists n. split; [exact Hn|]. apply enumeratedAt_self. exact Hf.
Qed.

Lemma child_enumerated_incl (p c : Node) :
  In c (forEachChild p) ->
  markupBelowBody c = false ->
  incl (enumerated c) (enumerated p).
Proof.
  intros Hc Hm x Hx. rewrite (enumerated_children p). apply in_flat_map.
  exists c. split; [exact Hc|]. apply (enumeratedAt_below c Hm). exact Hx.
Qed.

Lemma Reached_enumerated_incl (root p : Node) :
  Reached root p ->
  markupBelowBody p = false ->
  incl (enumerated p) (enumerated root).
Proof.
  intros Hr. induction Hr as [p Hp | q p Hq IH Hmq Hp]; intros Hm.
  - apply child_enumerated_incl; assumption.
  - intros x Hx. apply (IH Hmq).
    apply (child_enumerated_incl q p Hp Hm). exact Hx.
Qed.

Lemma enumerated_iff_Reached (root n : Node) :
  In n (enumerated root) <-> isFunctionLike n = true /\ Reached root n.
Proof.
  split; [apply enumerated_Reached|].
  intros [Hf Hr]. destruct Hr as [n Hn | p n Hp Hm Hn].
  - apply child_enumerated; assumption.
  - apply (Reached_enumerated_incl Hp Hm).
    apply child_enumerated; assumption.
Qed.

(** X6: which nodes the traversal of a tree counts, and with what verdict:
    exactly the function-like nodes that can be reached from the root along
    children without passing through a node with markup below its body,
    each with the verdict of [classify].  So a function-like child of the
    root is always counted, and so is a function in a parameter default or
    in an attribute of a markup body. *)
Theorem counted_exactly_the_reached (root n : Node) (v : Classification) :
  In (n, v) (classified (forEachDescendant cbNode root noCounts)) <->
  isFunctionLike n = true /\ Reached root n /\ v = classify n.
Proof.
  rewrite forEachDescendant_classified. simpl. unfold verdicts.
  rewrite in_map_iff. split.
  - intros [x [[= -> <-] Hx]]. apply enumerated_iff_Reached in Hx.
    destruct Hx. auto.
  - intros (Hf & Hr & ->). exists n. split; [reflexivity|].
    apply enumerated_iff_Reached. auto.
Qed.

Lemma counted_exactly_the_reached_witness :
  In (constantArrow, Plain)
     (classified (forEachDescendant cbNode (sourceNode (file [handler]))
                    noCounts)) /\
  (isFunctionLike outer = true /\ Reached (sourceNode (file [outer])) outer /\
   MarkupProducing = classify outer).
Proof.
  split.
  - apply (proj2 (counted_exactly_the_reached
                    (sourceNode (file [handler])) constantArrow Plain)).
    split; [reflexivity|split; [|reflexivity]].
    apply Reached_below
      with (p := OtherNode JsxExpression [constantArrow]);
      [|reflexivity|left; reflexivity].
    apply Reached_below
      with (p := OtherNode JsxAttributes
                   [OtherNode JsxExpression [constantArrow]]);
      [|reflexivity|left; reflexivity].
    apply Reached_below
      with (p := JsxSelfClosingElement
                   [ident;
                    OtherNode JsxAttributes
                      [OtherNode JsxExpression [constantArrow]]]);
      [|reflexivity|right; left; reflexivity].
    apply Reached_below with (p := handler);
      [|reflexivity|right; left; reflexivity].
    apply Reached_child. left. reflexivity.
  - apply (proj1 (counted_exactly_the_reached
                    (sourceNode (file [outer])) outer MarkupProducing)).
    simpl. left. reflexivity.
Defined.

End EnumerationProperties.

(** ** Further properties of a whole run *)

Module RunProperties.
Import Ast Analyzer Spec Shape TraversalFacts ClassifierFacts ClassifierClaims.
Import RunFacts ClassifierProperties EnumerationProperties Samples Cases.

Lemma enumeratedAt_incl (c : Node) :
  incl (enumerated c) (functionNodes c) ->
  incl (enumeratedAt c) (filter isFunctionLike (c :: descendants c)).
Proof.
  intros IH x Hx. apply filter_In.
  destruct (enumeratedAt_inv c x Hx) as [[-> Hf] | [_ Hin]].
  - split; [left; reflexivity|exact Hf].
  - apply IH in Hin. apply filter_In in Hin. destruct Hin as [Hd Hf].
    split; [right; exact Hd|exact Hf].
Qed.

Lemma enumerated_incl (node : Node) :
  incl (enumerated node) (functionNodes node).
Proof.
  induction node as [node IH] using Node_children_ind.
  unfold functionNodes. rewrite enumerated_children, descendants_children.
  intros x Hx. apply in_flat_map in Hx. destruct Hx as [c [Hc Hx]].
  rewrite Forall_forall in IH.
  apply (enumeratedAt_incl c (IH c Hc)) in Hx.
  apply filter_In in Hx. destruct Hx as [Hd Hf].
  apply filter_In. split; [|exact Hf].
  apply in_flat_map. exists c. auto.
Qed.

Lemma enumerated_length (node : Node) :
  List.length (enumerated node) <= List.length (functionNodes node).
Proof.
  induction node as [node IH] using Node_children_ind.
  unfold functionNodes. rewrite enumerated_children, descendants_children.
  induction IH as [|c rest Hc _ IHrest]; simpl; [lia|].
  rewrite length_app. unfold enumeratedAt, functionNodes in *.
  destruct (isFunctionLike c); simpl; rewrite filter_app, length_app.
  - destruct (markupBelowBody c); simpl; lia.
  - lia.
Qed.

Lemma flat_map_length_le (A B : Type) (f g : A -> list B) (l : list A) :
  (forall a, List.length (f a) <= List.length (g a)) ->
  List.length (flat_map f l) <= List.length (flat_map g l).
Proof.
  intros H. induction l as [|a l IH]; simpl; [lia|].
  rewrite !length_app. specialize (H a). lia.
Qed.

Lemma run_total (folder : string) (files : list SourceFile) :
  jsxFunctionCount (counts (analyzeSourceFiles folder files))
  + normalFunctionCount (counts (analyzeSourceFiles folder files))
  = List.length (flat_map fileEnumerated files).
Proof.
  destruct (run_Consistent folder files) as [Hj Hn _].
  rewrite Hj, Hn, verdict_partition, run_classified.
  unfold verdicts. apply length_map.
Qed.

(** X7: the total never exceeds the number of function-like nodes in the files,
    every counted node is a function-like node of one of the files, and the
    total can fall short: Scenario D has two function declarations and a
    total of one. *)
Theorem total_at_most_the_function_nodes :
  (forall folder files,
      let c := counts (analyzeSourceFiles folder files) in
      jsxFunctionCount c + normalFunctionCount c
        <= List.length (flat_map fileFunctionNodes files) /\
      forall n v,
        In (n, v) (classified c) ->
        exists sf, In sf files /\ In n (functionNodes (sourceNode sf))) /\
  (let c := counts (analyzeSourceFiles "/src" [file [outer]]) in
   jsxFunctionCount c + normalFunctionCount c = 1 /\
   List.length (fileFunctionNodes (file [outer])) = 2).
Proof.
  split; [|split; reflexivity].
  intros folder files c. subst c. split.
  - rewrite run_total. apply flat_map_length_le. intros sf.
    apply enumerated_length.
  - intros n v Hin. rewrite run_classified in Hin. unfold verdicts in Hin.
    apply in_map_iff in Hin. destruct Hin as [x [[= -> _] Hx]].
    apply in_flat_map in Hx. destruct Hx as [sf [Hsf Hx]].
    exists sf. split; [exact Hsf|]. apply enumerated_incl. exact Hx.
Qed.

Lemma total_at_most_the_function_nodes_witness :
  exists sf,
    In sf [file [scenarioB; scenarioC]] /\
    In scenarioC (functionNodes (sourceNode sf)).
Proof.
  apply (proj2 (proj1 total_at_most_the_function_nodes "/src"
                  [file [scenarioB; scenarioC]])
           scenarioC MarkupProducing).
  simpl. right. left. reflexivity.
Defined.

Lemma markup_free_Plain (root n : Node) :
  existsb isJsx (descendants root) = false ->
  In n (descendants root) ->
  classify n = Plain.
Proof.
  intros Hfree Hn. destruct (classify n) eqn:Hv; [|reflexivity].
  destruct (MarkupProducing_markup n Hv) as [m [Hm Hj]].
  apply (descendants_trans _ _ Hn) in Hm.
  assert (existsb isJsx (descendants root) = true)
    by (apply existsb_exists; eauto).
  congruence.
Qed.

Lemma verdicts_all_Plain (l : list Node) :
  (forall n, In n l -> classify n = Plain) ->
  filter (fun e => isMarkupProducing (snd e)) (verdicts l) = [] /\
  filter (fun e => isPlain (snd e)) (verdicts l) = verdicts l.
Proof.
  induction l as [|n l IH]; simpl; intros H; [auto|].
  rewrite (H n (or_introl eq_refl)). simpl.
  destruct IH as [IH1 IH2]; [intros; apply H; right; assumption|].
  rewrite IH1, IH2. auto.
Qed.

(** X8: files without markup: every function-like node of every file is
    enumerated, nested ones included, every one is Plain, so
    [jsxFunctionCount] stays 0 and [normalFunctionCount] is the number of
    function-like nodes. *)
Theorem markup_free_files_count_everything
    (folder : string) (files : list SourceFile) :
  (forall sf, In sf files ->
              existsb isJsx (descendants (sourceNode sf)) = false) ->
  let c := counts (analyzeSourceFiles folder files) in
  map fst (classified c) = flat_map fileFunctionNodes files /\
  jsxFunctionCount c = 0 /\
  normalFunctionCount c = List.length (flat_map fileFunctionNodes files).
Proof.
  intros Hfree c. subst c.
  assert (Hen : flat_map fileEnumerated files
                = flat_map fileFunctionNodes files).
  { induction files as [|sf files IH]; simpl; [reflexivity|].
    rewrite IH by (intros; apply Hfree; right; assumption).
    unfold fileEnumerated at 1, fileFunctionNodes at 1, functionNodes.
    rewrite enumerated_without_markup
      by (apply Hfree; left; reflexivity).
    reflexivity. }
  assert (Hplain : forall n, In n (flat_map fileFunctionNodes files) ->
                             classify n = Plain).
  { intros n Hn. apply in_flat_map in Hn. destruct Hn as [sf [Hsf Hn]].
    apply filter_In in Hn. destruct Hn as [Hn _].
    apply (markup_free_Plain (sourceNode sf)); auto. }
  destruct (run_Consistent folder files) as [Hj Hn _].
  pose proof (run_classified folder files) as Hlog.
  fold fileEnumerated in Hlog. rewrite Hen in Hlog.
  destruct (verdicts_all_Plain _ Hplain) as [H1 H2].
  rewrite Hj, Hn, Hlog, H1, H2. unfold verdicts.
  rewrite map_map, length_map. simpl. rewrite map_id. auto.
Qed.

Lemma markup_free_files_count_everything_witness :
  let c := counts (analyzeSourceFiles "/src"
                     [file [outerPlain]; file [assigned]]) in
  map fst (classified c)
    = flat_map fileFunctionNodes [file [outerPlain]; file [assigned]] /\
  jsxFunctionCount c = 0 /\
  normalFunctionCount c
    = List.length
        (flat_map fileFunctionNodes [file [outerPlain]; file [assigned]]).
Proof.
  apply (@markup_free_files_count_everything "/src"
           [file [outerPlain]; file [assigned]]).
  intros sf [<- | [<- | []]]; reflexivity.
Defined.

Lemma filter_verdicts_flat_map (keep : Classification -> bool)
    (files : list SourceFile) :
  List.length
    (filter (fun e => keep (snd e)) (verdicts (flat_map fileEnumerated files)))
  = list_sum
      (map (fun sf =>
              List.length
                (filter (fun e => keep (snd e))
                        (verdicts (fileEnumerated sf))))
           files).
Proof.
  induction files as [|sf files IH]; simpl; [reflexivity|].
  unfold verdicts in *. rewrite map_app, filter_app, length_app, IH.
  reflexivity.
Qed.

Lemma jsxOf_alone (sf : SourceFile) :
  jsxOf sf =
  List.length
    (filter (fun e => isMarkupProducing (snd e)) (verdicts (fileEnumerated sf))).
Proof.
  unfold jsxOf. destruct (run_Consistent EmptyString [sf]) as [Hj _ _].
  rewrite Hj, run_classified. simpl. rewrite app_nil_r. reflexivity.
Qed.

Lemma normalOf_alone (sf : SourceFile) :
  normalOf sf =
  List.length
    (filter (fun e => isPlain (snd e)) (verdicts (fileEnumerated sf))).
Proof.
  unfold normalOf. destruct (run_Consistent EmptyString [sf]) as [_ Hn _].
  rewrite Hn, run_classified. simpl. rewrite app_nil_r. reflexivity.
Qed.

Lemma run_jsx_sum (folder : string) (files : list SourceFile) :
  jsxFunctionCount (counts (analyzeSourceFiles folder files))
  = list_sum (map jsxOf files).
Proof.
  destruct (run_Consistent folder files) as [Hj _ _].
  rewrite Hj, run_classified.
  change (fun sf => enumerated (sourceNode sf)) with fileEnumerated.
  rewrite filter_verdicts_flat_map. f_equal. apply map_ext.
  intros sf. symmetry. apply jsxOf_alone.
Qed.

Lemma run_normal_sum (folder : string) (files : list SourceFile) :
  normalFunctionCount (counts (analyzeSourceFiles folder files))
  = list_sum (map normalOf files).
Proof.
  destruct (run_Consistent folder files) as [_ Hn _].
  rewrite Hn, run_classified.
  change (fun sf => enumerated (sourceNode sf)) with fileEnumerated.
  rewrite filter_verdicts_flat_map. f_equal. apply map_ext.
  intros sf. symmetry. apply normalOf_alone.
Qed.

Lemma list_sum_Permutation (l l' : list nat) :
  Permutation l l' -> list_sum l = list_sum l'.
Proof.
  induction 1; simpl; lia.
Qed.

(** X9: the counters are sums over the files: each file adds what it would give
    when analysed alone, so the counters of two batches add up, and neither
    the order of the files nor the folder name nor the file paths change
    the counters. *)
Theorem counters_add_up_over_files :
  (forall folder files,
      let c := counts (analyzeSourceFiles folder files) in
      jsxFunctionCount c = list_sum (map jsxOf files) /\
      normalFunctionCount c = list_sum (map normalOf files)) /\
  (forall folder files1 files2,
      let c := counts (analyzeSourceFiles folder (files1 ++ files2)) in
      let c1 := counts (analyzeSourceFiles folder files1) in
      let c2 := counts (analyzeSourceFiles folder files2) in
      jsxFunctionCount c = jsxFunctionCount c1 + jsxFunctionCount c2 /\
      normalFunctionCount c
        = normalFunctionCount c1 + normalFunctionCount c2 /\
      classified c = classified c1 ++ classified c2) /\
  (forall folder folder' files files',
      Permutation files files' ->
      let c := counts (analyzeSourceFiles folder files) in
      let c' := counts (analyzeSourceFiles folder' files') in
      jsxFunctionCount c = jsxFunctionCount c' /\
      normalFunctionCount c = normalFunctionCount c').
Proof.
  split; [|split].
  - intros folder files c. subst c. split;
      [apply run_jsx_sum|apply run_normal_sum].
  - intros folder files1 files2 c c1 c2. subst c c1 c2.
    rewrite !run_jsx_sum, !run_normal_sum, !run_classified.
    rewrite !map_app, !list_sum_app, flat_map_app. unfold verdicts.
    rewrite map_app. auto.
  - intros folder folder' files files' Hperm c c'. subst c c'.
    rewrite !run_jsx_sum, !run_normal_sum.
    split; apply list_sum_Permutation, Permutation_map; exact Hperm.
Qed.

Lemma counters_add_up_over_files_witness :
  let c := counts (analyzeSourceFiles "/a"
                     [fileAt "/a/x.tsx" [component]; fileAt "/a/y.ts" [assigned]]) in
  let c' := counts (analyzeSourceFiles "/b"
                     [fileAt "/a/y.ts" [assigned]; fileAt "/a/x.tsx" [component]]) in
  jsxFunctionCount c = jsxFunctionCount c' /\
  normalFunctionCount c = normalFunctionCount c'.
Proof.
  apply (proj2 (proj2 counters_add_up_over_files) "/a" "/b").
  apply perm_swap.
Defined.

Lemma stdout_processFiles (files : list SourceFile) (r : Run) :
  stdout (fold_left processFile files r) = stdout r ++ progressLines files.
Proof.
  revert r. induction files as [|sf files IH]; simpl; intros r.
  - now rewrite app_nil_r.
  - rewrite IH. simpl. rewrite <- app_assoc. reflexivity.
Qed.

Lemma stdout_closed_form (folder : string) (files : list SourceFile) :
  stdout (analyzeSourceFiles folder files) =
    [("Analyzing " ++ show (List.length files) ++ " files in "
        ++ folder ++ "...")%string]
    ++ progressLines files
    ++ reportLines (List.length files)
         (jsxFunctionCount (counts (analyzeSourceFiles folder files)))
         (normalFunctionCount (counts (analyzeSourceFiles folder files))).
Proof.
  unfold analyzeSourceFiles. cbn [stdout counts].
  rewrite stdout_processFiles. cbn [stdout].
  rewrite <- app_assoc. reflexivity.
Qed.

Lemma lineBreaks_app (a b : string) :
  lineBreaks (a ++ b)%string = lineBreaks a + lineBreaks b.
Proof.
  induction a as [|c a IH]; cbn [lineBreaks String.append]; [reflexivity|].
  rewrite IH. lia.
Qed.

Lemma lineBreaks_uint (d : Decimal.uint) :
  lineBreaks (NilEmpty.string_of_uint d) = 0.
Proof.
  induction d; cbn [lineBreaks NilEmpty.string_of_uint]; try reflexivity;
    rewrite IHd; reflexivity.
Qed.

Lemma lineBreaks_show (n : nat) : lineBreaks (show n) = 0.
Proof. apply lineBreaks_uint. Qed.

Lemma writtenLines_app (l1 l2 : list string) :
  writtenLines (l1 ++ l2) = writtenLines l1 + writtenLines l2.
Proof. unfold writtenLines. now rewrite map_app, list_sum_app. Qed.

Lemma writtenLines_progressLines (files : list SourceFile) :
  (forall sf, In sf files -> lineBreaks (getFilePath sf) = 0) ->
  writtenLines (progressLines files) = List.length files.
Proof.
  induction files as [|sf files IH]; intros H; [reflexivity|].
  change (writtenLines (progressLines (sf :: files)))
    with (lineBreaks ("Processing file: " ++ getFilePath sf)%string + 1
          + writtenLines (progressLines files)).
  rewrite IH by (intros; apply H; right; assumption).
  rewrite lineBreaks_app, (H sf (or_introl eq_refl)).
  change (lineBreaks "Processing file: ") with 0. simpl. lia.
Qed.

Lemma writtenLines_reportLines (nfiles jsx normal : nat) :
  writtenLines (reportLines nfiles jsx normal) = 6.
Proof.
  unfold writtenLines, reportLines. cbn [map list_sum].
  rewrite !lineBreaks_app, !lineBreaks_show. reflexivity.
Qed.

(** X10: what a completed analysis writes to standard output.  It makes
    [6 + n] calls of [console.log] for [n] source files, and, as the call
    that prints [--- Analysis Complete ---] starts with a line break, the
    text has [7 + n] lines, provided the folder name and the file paths
    hold no line break. *)
Theorem report_line_count (folder : string) (files : list SourceFile) :
  lineBreaks folder = 0 ->
  (forall sf, In sf files -> lineBreaks (getFilePath sf) = 0) ->
  List.length (stdout (analyzeSourceFiles folder files))
    = 6 + List.length files /\
  writtenLines (stdout (analyzeSourceFiles folder files))
    = 7 + List.length files.
Proof.
  intros Hfolder Hpaths. rewrite stdout_closed_form. split.
  - unfold progressLines, reportLines.
    rewrite !length_app, length_map. simpl. lia.
  - rewrite !writtenLines_app, writtenLines_progressLines by exact Hpaths.
    rewrite writtenLines_reportLines.
    unfold writtenLines. cbn [map].
    rewrite !lineBreaks_app, lineBreaks_show, Hfolder.
    change (lineBreaks "Analyzing ") with 0.
    change (lineBreaks " files in ") with 0.
    change (lineBreaks "...") with 0. cbn [list_sum fold_right]. lia.
Qed.

Lemma report_line_count_witness :
  List.length (stdout (analyzeSourceFiles "/src" [file [scenarioB]])) = 6 + 1 /\
  writtenLines (stdout (analyzeSourceFiles "/src" [file [scenarioB]])) = 7 + 1.
Proof.
  apply (@report_line_count "/src" [file [scenarioB]]).
  - reflexivity.
  - intros sf [<- | []]. reflexivity.
Defined.

End RunProperties.

(** ** Further properties of the driver *)

Module DriverProperties.
Import Ast Analyzer Cli Spec Shape StackFacts Samples Cases DriverClaims.

(** X11: [.replace(/\\/g, "/")] on the include pattern: the result has the same
    length and no backslash, every other character stays where it is, a
    pattern without a backslash is returned as it is, and replacing again
    changes nothing. *)
Theorem replaceBackslashes_normalizes :
  (forall s, String.length (replaceBackslashes s) = String.length s) /\
  (forall s, hasBackslash (replaceBackslashes s) = false) /\
  (forall s, hasBackslash s = false -> replaceBackslashes s = s) /\
  (forall s, replaceBackslashes (replaceBackslashes s) = replaceBackslashes s) /\
  (forall s n c,
      String.get n s = Some c -> c <> backslash ->
      String.get n (replaceBackslashes s) = Some c).
Proof.
  assert (Hno : forall s, hasBackslash (replaceBackslashes s) = false).
  { intros s. unfold hasBackslash. induction s as [|c s IH];
      cbn [existsb list_ascii_of_string replaceBackslashes];
      [reflexivity|].
    rewrite IH, orb_false_r.
    destruct (Ascii.eqb c "092"%char) eqn:Hc; [reflexivity|].
    rewrite Ascii.eqb_sym. exact Hc. }
  assert (Hid : forall s, hasBackslash s = false -> replaceBackslashes s = s).
  { intros s. unfold hasBackslash. induction s as [|c s IH];
      cbn [existsb list_ascii_of_string replaceBackslashes];
      [reflexivity|].
    intros H. apply orb_false_iff in H. destruct H as [Hc Hs].
    rewrite (IH Hs). rewrite Ascii.eqb_sym in Hc. unfold backslash in Hc.
    rewrite Hc. reflexivity. }
  split; [|split; [|split; [|split]]].
  - intros s. induction s as [|c s IH]; simpl; [reflexivity|].
    now rewrite IH.
  - exact Hno.
  - exact Hid.
  - intros s. apply Hid, Hno.
  - intros s. induction s as [|c0 s IH]; intros n c;
      cbn [String.get replaceBackslashes]; [discriminate|].
    destruct n as [|n].
    + intros [= ->] Hc.
      destruct (Ascii.eqb c "092"%char) eqn:Hb; [|reflexivity].
      apply Ascii.eqb_eq in Hb. contradiction.
    + apply IH.
Qed.

Lemma replaceBackslashes_normalizes_witness :
  replaceBackslashes "/src/**/*.{ts,tsx}" = "/src/**/*.{ts,tsx}" /\
  String.get 1 (replaceBackslashes "C:\src") = Some ":"%char.
Proof.
  split.
  - apply (proj1 (proj2 (proj2 replaceBackslashes_normalizes))). reflexivity.
  - apply (proj2 (proj2 (proj2 (proj2 replaceBackslashes_normalizes)))
             "C:\src" 1 ":"%char); [reflexivity|discriminate].
Defined.








End DriverProperties.
